(** * Attendance and payroll engine of [src/routes/employees.js]

    Shallow embedding of the attendance routes (check-in, check-out,
    break start/end), of the per-period aggregation of the attendance
    and report routes, of the payslip route and of the two
    top-performer rankings; then of today's summary, the bulk
    check-in, the salary summary, the report's attendance issues, the
    recent attendance and pagination of the employee routes, the
    dashboard's concerned employees and the CSV rows of the export.

    Modelling conventions:
    - a JS [Date] is a millisecond count [Z] in local time; the local
      calendar day of a time [t] is [t / 86400000] and its midnight is
      [day * 86400000] (no daylight-saving shifts);
    - JS numbers used for hours, percentages and money are exact
      rationals [Q]; [Math.round x] is [floor (x + 1/2)], [Math.floor]
      of an integer quotient is [Z.div];
    - a shift time string ["HH:MM"] is given already split as a pair
      [(HH, MM)]; [None] stands for an unset (falsy) string;
    - the request body's [latitude && longitude] test is folded into an
      optional [GeoPoint];
    - a route that answers with an error status saves nothing; a route
      that succeeds saves the mutated employee. *)

From Stdlib Require Import ZArith QArith Qround List Bool Ascii String Lia.
From Stdlib Require Import Sorting.Sorted Sorting.Permutation.
Import ListNotations.

Open Scope Z_scope.

(** ** Data model *)

Inductive Status : Set :=
| present | late | overtime | early_leave | half_day | absent.

Definition Status_eqb (x y : Status) : bool :=
  match x, y with
  | present, present | late, late | overtime, overtime
  | early_leave, early_leave | half_day, half_day | absent, absent => true
  | _, _ => false
  end.

Record GeoPoint : Set := mkGeoPoint {
  latitude : Q;
  longitude : Q;
  address : string
}.

(** A break subdocument: [{startTime, endTime, duration, type}]. *)
Record Break : Set := mkBreak {
  b_startTime : Z;
  b_endTime : option Z;
  b_duration : option Z;
  b_type : string
}.

(** One entry of [employee.attendance]; [att_date] is the day index of
    the stored midnight [date]. *)
Record Attendance : Set := mkAttendance {
  att_date : Z;
  loginTime : option Z;
  logoutTime : option Z;
  isPresent : bool;
  status : Status;
  lateMinutes : Z;
  earlyLeaveMinutes : option Z;
  workLocation : string;
  checkInLocation : option GeoPoint;
  checkOutLocation : option GeoPoint;
  breaks : list Break;
  totalBreakTime : Z;
  hoursWorked : option Q;
  overtimeHours : option Q
}.

Record ShiftTiming : Set := mkShiftTiming {
  startTime : option (Z * Z);
  endTime : option (Z * Z)
}.

Record Employee : Set := mkEmployee {
  isActive : bool;
  shiftTiming : ShiftTiming;
  attendance : list Attendance;
  lastLogin : option Z
}.

(** The error kinds of the spec; each route's error answer maps to one. *)
Inductive Error : Set :=
| NotFound | InactiveEmployee | AlreadyCheckedIn | NotCheckedIn
| AlreadyCheckedOut | BreakInProgress | NoOpenBreak | InvalidInput.

Inductive result (A : Type) : Type :=
| Ok (a : A)
| Err (e : Error).
Arguments Ok {A} a.
Arguments Err {A} e.

(** ** Time and number helpers *)

Definition ms_per_minute : Z := 1000 * 60.
Definition ms_per_day : Z := 86400000.

(** [new Date(now.getFullYear(), now.getMonth(), now.getDate())] *)
Definition day_of (now : Z) : Z := now / ms_per_day.

(** [d = new Date(today); d.setHours(h, m, 0, 0)] *)
Definition set_hours (day : Z) (hm : Z * Z) : Z :=
  day * ms_per_day + fst hm * 3600000 + snd hm * 60000.

(** [employee.shiftTiming.startTime || '09:00'] and
    [employee.shiftTiming.endTime || '18:00'] *)
Definition shift_start (st : ShiftTiming) : Z * Z :=
  match startTime st with Some hm => hm | None => (9, 0) end.
Definition shift_end (st : ShiftTiming) : Z * Z :=
  match endTime st with Some hm => hm | None => (18, 0) end.

(** [Math.round] *)
Definition js_round (q : Q) : Z := Qfloor (q + (1 # 2)).

(** [Math.round(x * 100) / 100] *)
Definition round2 (q : Q) : Q := inject_Z (js_round (q * 100)) / 100.

Definition qltb (x y : Q) : bool := negb (Qle_bool y x).
Definition qmax (x y : Q) : Q := if Qle_bool x y then y else x.

(** ** Attendance array helpers *)

(** [employee.attendance.find(att => same date as today)] *)
Fixpoint find_today (d : Z) (l : list Attendance) : option Attendance :=
  match l with
  | [] => None
  | a :: r => if Z.eqb (att_date a) d then Some a else find_today d r
  end.

(** In-place mutation of the element that [find] returned. *)
Fixpoint replace_today (d : Z) (a' : Attendance) (l : list Attendance)
  : list Attendance :=
  match l with
  | [] => []
  | a :: r => if Z.eqb (att_date a) d then a' :: r
              else a :: replace_today d a' r
  end.

Definition with_attendance (l : list Attendance) (e : Employee) : Employee :=
  mkEmployee (isActive e) (shiftTiming e) l (lastLogin e).

(** ** Breaks *)

(** [breaks.find(b => !b.endTime)] *)
Fixpoint find_open (bs : list Break) : option Break :=
  match bs with
  | [] => None
  | b :: r => match b_endTime b with
              | None => Some b
              | Some _ => find_open r
              end
  end.

(** [b.endTime = now; b.duration = Math.round((now - b.startTime) / 60000)] *)
Definition close_break (now : Z) (b : Break) : Break :=
  mkBreak (b_startTime b) (Some now)
          (Some (js_round (inject_Z (now - b_startTime b) / inject_Z ms_per_minute)))
          (b_type b).

(** Closing the break object returned by [find]. *)
Fixpoint close_first_open (now : Z) (bs : list Break) : list Break :=
  match bs with
  | [] => []
  | b :: r => match b_endTime b with
              | None => close_break now b :: r
              | Some _ => b :: close_first_open now r
              end
  end.

(** [breakItem.duration || 0] *)
Definition dur0 (b : Break) : Z :=
  match b_duration b with Some d => d | None => 0 end.

(** [breaks.reduce((total, b) => total + (b.duration || 0), 0)] *)
Definition sum_durations (bs : list Break) : Z :=
  fold_left (fun t b => t + dur0 b) bs 0.

Definition valid_break_type (ty : string) : bool :=
  existsb (String.eqb ty) ["lunch"; "tea"; "dinner"; "other"]%string.

(** ** Attendance record setters *)

Definition set_breaks_total (bs : list Break) (tot : Z) (a : Attendance)
  : Attendance :=
  mkAttendance (att_date a) (loginTime a) (logoutTime a) (isPresent a)
    (status a) (lateMinutes a) (earlyLeaveMinutes a) (workLocation a)
    (checkInLocation a) (checkOutLocation a) bs tot
    (hoursWorked a) (overtimeHours a).

Definition set_breaks (bs : list Break) (a : Attendance) : Attendance :=
  set_breaks_total bs (totalBreakTime a) a.

Definition set_status (s : Status) (a : Attendance) : Attendance :=
  mkAttendance (att_date a) (loginTime a) (logoutTime a) (isPresent a)
    s (lateMinutes a) (earlyLeaveMinutes a) (workLocation a)
    (checkInLocation a) (checkOutLocation a) (breaks a) (totalBreakTime a)
    (hoursWorked a) (overtimeHours a).

Definition set_early_leave (m : Z) (a : Attendance) : Attendance :=
  mkAttendance (att_date a) (loginTime a) (logoutTime a) (isPresent a)
    (status a) (lateMinutes a) (Some m) (workLocation a)
    (checkInLocation a) (checkOutLocation a) (breaks a) (totalBreakTime a)
    (hoursWorked a) (overtimeHours a).

(** [logoutTime], [hoursWorked], [overtimeHours] and, when coordinates
    were sent, [checkOutLocation]. *)
Definition set_logout (now : Z) (hw ot : Q) (loc : option GeoPoint)
  (a : Attendance) : Attendance :=
  mkAttendance (att_date a) (loginTime a) (Some now) (isPresent a)
    (status a) (lateMinutes a) (earlyLeaveMinutes a) (workLocation a)
    (checkInLocation a)
    (match loc with Some g => Some g | None => checkOutLocation a end)
    (breaks a) (totalBreakTime a) (Some hw) (Some ot).

(** [Object.assign(existingAttendance, attendanceData)]: the keys of
    [attendanceData] are overwritten, the others are kept. *)
Definition assign_checkin (d now : Z) (s : Status) (lm : Z) (wl : string)
  (loc : option GeoPoint) (a : Attendance) : Attendance :=
  mkAttendance d (Some now) (logoutTime a) true s lm (earlyLeaveMinutes a)
    wl loc (checkOutLocation a) [] 0 (hoursWorked a) (overtimeHours a).

(** The freshly pushed [attendanceData]. *)
Definition new_checkin (d now : Z) (s : Status) (lm : Z) (wl : string)
  (loc : option GeoPoint) : Attendance :=
  mkAttendance d (Some now) None true s lm None wl loc None [] 0 None None.

(** ** Routes *)

(** [POST /:id/checkin] (after the employee was loaded). *)
Definition checkin (now : Z) (loc : option GeoPoint) (wl : string)
  (e : Employee) : result Employee :=
  if negb (isActive e) then Err InactiveEmployee else
  let today := day_of now in
  let existing := find_today today (attendance e) in
  let already := match existing with
                 | Some a => match loginTime a with Some _ => true | None => false end
                 | None => false
                 end in
  if already then Err AlreadyCheckedIn else
  let shiftStartTime := set_hours today (shift_start (shiftTiming e)) in
  let lm := Z.max 0 ((now - shiftStartTime) / ms_per_minute) in
  let s := if 15 <? lm then late else present in
  let atts :=
    match existing with
    | Some a => replace_today today (assign_checkin today now s lm wl loc a)
                              (attendance e)
    | None => attendance e ++ [new_checkin today now s lm wl loc]
    end in
  Ok (mkEmployee (isActive e) (shiftTiming e) atts (Some now)).

(** [(now - loginTime) / 60000 - totalBreakTime) / 60] *)
Definition hours_worked (now lt tbt : Z) : Q :=
  (inject_Z (now - lt) / inject_Z ms_per_minute - inject_Z tbt) / 60.

(** [((endHour*60 + endMinute) - (startHour*60 + startMinute)) / 60] *)
Definition standard_shift_hours (st : ShiftTiming) : Q :=
  let '(sh, sm) := shift_start st in
  let '(eh, em) := shift_end st in
  inject_Z ((eh * 60 + em) - (sh * 60 + sm)) / 60.

(** "End any ongoing break" at the start of [POST /:id/checkout]. *)
Definition force_close (now : Z) (a : Attendance) : Attendance :=
  match find_open (breaks a) with
  | Some _ => let bs := close_first_open now (breaks a) in
              set_breaks_total bs (sum_durations bs) a
  | None => a
  end.

(** The record mutations of [POST /:id/checkout] once its guards passed. *)
Definition checkout_record (now : Z) (loc : option GeoPoint)
  (st : ShiftTiming) (lt : Z) (a : Attendance) : Attendance :=
  let today := day_of now in
  let a1 := force_close now a in
  let hw := hours_worked now lt (totalBreakTime a1) in
  let ot := qmax 0 (hw - standard_shift_hours st) in
  let shiftEndTime := set_hours today (shift_end st) in
  let el := Z.max 0 ((shiftEndTime - now) / ms_per_minute) in
  let a2 := set_logout now (round2 hw) (round2 ot) loc a1 in
  if qltb (1 # 2) ot then set_status overtime a2
  else if 30 <? el then set_status early_leave (set_early_leave el a2)
  else if qltb hw 4 then set_status half_day a2
  else a2.

(** [POST /:id/checkout]. *)
Definition checkout (now : Z) (loc : option GeoPoint) (e : Employee)
  : result Employee :=
  let today := day_of now in
  match find_today today (attendance e) with
  | None => Err NotCheckedIn
  | Some a =>
      match loginTime a with
      | None => Err NotCheckedIn
      | Some lt =>
          match logoutTime a with
          | Some _ => Err AlreadyCheckedOut
          | None =>
              Ok (with_attendance
                    (replace_today today
                       (checkout_record now loc (shiftTiming e) lt a)
                       (attendance e)) e)
          end
      end
  end.

(** [POST /:id/break/start]. *)
Definition break_start (now : Z) (ty : string) (e : Employee)
  : result Employee :=
  if negb (valid_break_type ty) then Err InvalidInput else
  let today := day_of now in
  match find_today today (attendance e) with
  | None => Err NotCheckedIn
  | Some a =>
      match loginTime a, logoutTime a, find_open (breaks a) with
      | None, _, _ => Err NotCheckedIn
      | Some _, Some _, _ => Err AlreadyCheckedOut
      | Some _, None, Some _ => Err BreakInProgress
      | Some _, None, None =>
          Ok (with_attendance
                (replace_today today
                   (set_breaks (breaks a ++ [mkBreak now None None ty]) a)
                   (attendance e)) e)
      end
  end.

(** [POST /:id/break/end]. *)
Definition break_end (now : Z) (e : Employee) : result Employee :=
  let today := day_of now in
  match find_today today (attendance e) with
  | None => Err NotFound
  | Some a =>
      match find_open (breaks a) with
      | None => Err NoOpenBreak
      | Some _ =>
          let bs := close_first_open now (breaks a) in
          Ok (with_attendance
                (replace_today today (set_breaks_total bs (sum_durations bs) a)
                   (attendance e)) e)
      end
  end.

(** [PUT /:id] may rewrite [isActive] and [shiftTiming] (never
    [attendance]). *)
Definition set_active (b : bool) (e : Employee) : Employee :=
  mkEmployee b (shiftTiming e) (attendance e) (lastLogin e).
Definition set_shift (st : ShiftTiming) (e : Employee) : Employee :=
  mkEmployee (isActive e) st (attendance e) (lastLogin e).

(** ** Request traces *)

Inductive Op : Set :=
| CheckIn (now : Z) (loc : option GeoPoint) (wl : string)
| CheckOut (now : Z) (loc : option GeoPoint)
| BreakStart (now : Z) (ty : string)
| BreakEnd (now : Z)
| SetActive (b : bool)
| SetShift (st : ShiftTiming).

Definition apply_op (op : Op) (e : Employee) : result Employee :=
  match op with
  | CheckIn now loc wl => checkin now loc wl e
  | CheckOut now loc => checkout now loc e
  | BreakStart now ty => break_start now ty e
  | BreakEnd now => break_end now e
  | SetActive b => Ok (set_active b e)
  | SetShift st => Ok (set_shift st e)
  end.

(** One request: the error answered (if any) and the stored employee. *)
Definition exec (op : Op) (e : Employee) : option Error * Employee :=
  match apply_op op e with
  | Ok e' => (None, e')
  | Err x => (Some x, e)
  end.

Fixpoint run (ops : list Op) (e : Employee) : Employee :=
  match ops with
  | [] => e
  | op :: r => run r (snd (exec op e))
  end.

(** Employees as the routes can leave them: created with an empty
    attendance history, then changed by any sequence of requests. *)
Definition fresh_employee (act : bool) (st : ShiftTiming) : Employee :=
  mkEmployee act st [] None.

Definition reachable (e : Employee) : Prop :=
  exists act st ops, e = run ops (fresh_employee act st).

(** ** Record invariant *)

(** A break is open exactly when it carries no duration. *)
Definition break_wf (b : Break) : Prop :=
  b_endTime b = None <-> b_duration b = None.

(** Sum of [durationMinutes] over the closed breaks. *)
Fixpoint closed_sum (bs : list Break) : Z :=
  match bs with
  | [] => 0
  | b :: r => match b_endTime b with
              | Some _ => dur0 b
              | None => 0
              end + closed_sum r
  end.

Definition rec_inv (a : Attendance) : Prop :=
  loginTime a <> None /\
  (logoutTime a = None -> status a = present \/ status a = late) /\
  Forall break_wf (breaks a) /\
  totalBreakTime a = closed_sum (breaks a).

Definition emp_inv (e : Employee) : Prop := Forall rec_inv (attendance e).

(** ** Concrete scenario: shift 09:00-18:00 (unset), day 20000 *)

Definition shift_default : ShiftTiming := mkShiftTiming None None.
Definition day0 : Z := 20000.
Definition t_at (h m : Z) : Z := day0 * ms_per_day + h * 3600000 + m * 60000.

Definition morning_ops : list Op :=
  [CheckIn (t_at 9 20) None "dining"; BreakStart (t_at 12 0) "lunch"].

Definition emp_on_break : Employee :=
  run morning_ops (fresh_employee true shift_default).
Definition emp_back_from_break : Employee :=
  run (morning_ops ++ [BreakEnd (t_at 12 30)]) (fresh_employee true shift_default).
Definition emp_out_from_break : Employee :=
  run (morning_ops ++ [CheckOut (t_at 17 0) None]) (fresh_employee true shift_default).
Definition emp_out : Employee :=
  run (morning_ops ++ [BreakEnd (t_at 12 30); CheckOut (t_at 17 0) None])
      (fresh_employee true shift_default).
Definition emp_in : Employee :=
  run [CheckIn (t_at 9 20) None "dining"] (fresh_employee true shift_default).
Definition emp_in_deactivated : Employee :=
  run [CheckIn (t_at 9 20) None "dining"; SetActive false]
      (fresh_employee true shift_default).

Definition res_map {A B : Type} (f : A -> B) (r : result A) : result B :=
  match r with Ok a => Ok (f a) | Err x => Err x end.

(** Today's record of [emp_in]. *)
Definition rec_in : Attendance :=
  match find_today day0 (attendance emp_in) with
  | Some a => a
  | None => new_checkin day0 0 present 0 "" None
  end.

(** Today's record exists and carries a [loginTime]. *)
Definition has_login (d : Z) (l : list Attendance) : Prop :=
  exists a, find_today d l = Some a /\ loginTime a <> None.

(** ** Period aggregation *)

(** [att.date >= start && att.date <= end] on millisecond dates. *)
Definition in_range (start end_ : Z) (a : Attendance) : bool :=
  (start <=? att_date a * ms_per_day) && (att_date a * ms_per_day <=? end_).

(** [arr.filter(f).length] *)
Definition count (f : Attendance -> bool) (l : list Attendance) : Z :=
  Z.of_nat (List.length (filter f l)).

(** [arr.reduce((sum, att) => sum + f(att), 0)] *)
Definition sumq (f : Attendance -> Q) (l : list Attendance) : Q :=
  fold_left (fun s a => s + f a)%Q l 0%Q.

Definition hours0 (a : Attendance) : Q :=
  match hoursWorked a with Some h => h | None => 0%Q end.
Definition overtime0 (a : Attendance) : Q :=
  match overtimeHours a with Some h => h | None => 0%Q end.

Definition is_late (a : Attendance) : bool := Status_eqb (status a) late.
Definition is_early_leave (a : Attendance) : bool :=
  Status_eqb (status a) early_leave.

Definition qmin (x y : Q) : Q := if Qle_bool x y then x else y.

(** Per-employee statistics of [GET /reports/comprehensive]. *)
Record ReportStats : Set := mkReportStats {
  rs_presentDays : Z;
  rs_absentDays : Z;
  rs_totalHours : Q;
  rs_overtimeHours : Q;
  rs_lateCount : Z;
  rs_earlyLeaveCount : Z;
  rs_attendancePercentage : Z;
  rs_punctualityScore : Z;
  rs_performanceScore : Q
}.

Definition report_stats (start end_ : Z) (atts : list Attendance) : ReportStats :=
  let inr := filter (in_range start end_) atts in
  let presentDays := count isPresent inr in
  let absentDays := count (fun a => negb (isPresent a)) inr in
  let totalHours := sumq hours0 inr in
  let overtimeHours := sumq overtime0 inr in
  let lateCount := count is_late inr in
  let earlyLeaveCount := count is_early_leave inr in
  let workingDays := presentDays + absentDays in
  let attendancePercentage :=
    if 0 <? workingDays
    then js_round (inject_Z presentDays / inject_Z workingDays * 100)
    else 0 in
  let punctualityScore :=
    if 0 <? presentDays
    then js_round (inject_Z (presentDays - lateCount - earlyLeaveCount)
                   / inject_Z presentDays * 100)
    else 0 in
  mkReportStats presentDays absentDays totalHours overtimeHours lateCount
    earlyLeaveCount attendancePercentage punctualityScore
    (round2 (inject_Z attendancePercentage * (4 # 10)
             + inject_Z punctualityScore * (3 # 10)
             + qmin (totalHours / 160) 1 * 100 * (3 # 10))).

(** The custom date range branch of [GET /:id/attendance]. *)
Record RangeStats : Set := mkRangeStats {
  rg_presentDays : Z;
  rg_totalHours : Q;
  rg_overtimeHours : Q;
  rg_totalBreakTime : Q;
  rg_lateCount : Z;
  rg_averageHours : Q
}.

Definition range_stats (start end_ : Z) (atts : list Attendance) : RangeStats :=
  let inr := filter (in_range start end_) atts in
  let presentDays := count isPresent inr in
  let totalHours := sumq hours0 inr in
  let overtimeHours := sumq overtime0 inr in
  let totalBreakTime := sumq (fun a => inject_Z (totalBreakTime a)) inr in
  let lateCount := count is_late inr in
  mkRangeStats presentDays (round2 totalHours) (round2 overtimeHours)
    (round2 (totalBreakTime / 60)) lateCount
    (if 0 <? presentDays then round2 (totalHours / inject_Z presentDays) else 0%Q).

(** A present day worked for [hw] hours (used in concrete checks). *)
Definition worked_day (d : Z) (hw : Q) (s : Status) (present_flag : bool) : Attendance :=
  mkAttendance d (Some (d * ms_per_day)) (Some (d * ms_per_day + 1)) present_flag s 0 None
    "dining" None None [] 0 (Some hw) (Some 0%Q).

(** ** Payslip *)

(** The fields of [employee.calculateSalary(month, year)] that the
    payslip reads ([undefined] is [None]). *)
Record SalaryData : Set := mkSalaryData {
  baseSalary : option Q;
  basePay : option Q;
  grossSalary : option Q;
  sd_overtimePay : option Q
}.

(** A JS number that may be [NaN]. *)
Inductive JsNum : Set := Num (q : Q) | NaN.

Definition js_add (x y : JsNum) : JsNum :=
  match x, y with Num a, Num b => Num (a + b)%Q | _, _ => NaN end.
Definition js_sub (x y : JsNum) : JsNum :=
  match x, y with Num a, Num b => Num (a - b)%Q | _, _ => NaN end.

(** [x || y] on possibly [undefined] numbers: [0] and [undefined] are
    falsy. *)
Definition js_or (x y : option Q) : option Q :=
  match x with
  | Some q => if Qeq_bool q 0 then y else x
  | None => y
  end.

(** [Math.round(v * r)] where [v] may be [undefined]. *)
Definition round_times (v : option Q) (r : Q) : JsNum :=
  match v with
  | Some b => Num (inject_Z (js_round (b * r)))
  | None => NaN
  end.

Definition or0 (v : option Q) : Q :=
  match js_or v (Some 0%Q) with Some q => q | None => 0%Q end.

Record Payslip : Set := mkPayslip {
  transport : Q;
  meal : Q;
  mobile : Q;
  performance : Q;
  totalAllowances : Q;
  basicSalary : Q;
  overtimePay : Q;
  grossEarnings : Q;
  pf : JsNum;
  esi : JsNum;
  tax : Q;
  advance : Q;
  totalDeductions : JsNum;
  netSalary : JsNum
}.

(** [GET /:id/salary/:month/:year] from [monthlyAttendance.attendancePercentage],
    [salaryData] and [employee.salary.deductions]. *)
Definition payslip (attendancePercentage : Q) (sd : SalaryData)
  (salary_deductions : option Q) : Payslip :=
  let perf := if Qle_bool 95 attendancePercentage then 2000%Q else 0%Q in
  let base := js_or (baseSalary sd) (basePay sd) in
  let pf_ := round_times base (12 # 100) in
  let esi_ := round_times base (175 # 10000) in
  let adv := or0 salary_deductions in
  let totA := (0 + 1000 + 500 + 300 + perf)%Q in
  let totD := js_add (js_add (js_add (js_add (Num 0) pf_) esi_) (Num 0)) (Num adv) in
  mkPayslip 1000 500 300 perf totA (or0 base) (or0 (sd_overtimePay sd))
    (or0 (grossSalary sd) + totA)%Q pf_ esi_ 0 adv totD
    (js_sub (Num (or0 (grossSalary sd) + totA)%Q) totD).

(** ** Top performers *)

(** The per-employee metrics the rankings read. *)
Record EmpMetric : Set := mkEmpMetric {
  em_id : Z;
  em_attendancePercentage : Z;
  em_punctualityScore : Z;
  em_totalHours : Q
}.

(** Stable descending sort, as [arr.sort((a, b) => key(b) - key(a))]:
    an element goes before the first later element whose key is not
    larger. *)
Fixpoint insert_desc {A : Type} (key : A -> Q) (x : A) (l : list A) : list A :=
  match l with
  | [] => [x]
  | y :: r => if Qle_bool (key y) (key x) then x :: y :: r
              else y :: insert_desc key x r
  end.

Fixpoint sort_desc {A : Type} (key : A -> Q) (l : list A) : list A :=
  match l with
  | [] => []
  | x :: r => insert_desc key x (sort_desc key r)
  end.

(** [GET /stats/attendance]: [performanceScore] of the dashboard. *)
Definition dashboard_score (m : EmpMetric) : Q :=
  round2 (inject_Z (em_attendancePercentage m) * (7 # 10)
          + inject_Z (em_punctualityScore m) * (3 # 10)).

Definition att_key (m : EmpMetric) : Q := inject_Z (em_attendancePercentage m).

(** [sortedByAttendance.slice(0, 5).map(emp => ({...emp, performanceScore}))] *)
Definition dashboard_top (l : list EmpMetric) : list (EmpMetric * Q) :=
  map (fun m => (m, dashboard_score m)) (firstn 5 (sort_desc att_key l)).

(** [GET /reports/comprehensive]: [performanceScore] of the report. *)
Definition report_score (m : EmpMetric) : Q :=
  round2 (inject_Z (em_attendancePercentage m) * (4 # 10)
          + inject_Z (em_punctualityScore m) * (3 # 10)
          + qmin (em_totalHours m / 160) 1 * 100 * (3 # 10)).

(** [employeeDetails.sort((a, b) => b.performanceScore - a.performanceScore).slice(0, 10)] *)
Definition report_top (l : list EmpMetric) : list (EmpMetric * Q) :=
  firstn 10 (sort_desc snd (map (fun m => (m, report_score m)) l)).

(** ** Further record invariants *)

Fixpoint open_count (bs : list Break) : nat :=
  match bs with
  | [] => O
  | b :: r => match b_endTime b with
              | None => S (open_count r)
              | Some _ => open_count r
              end
  end.

(** What check-in, breaks and check-out keep on every record. *)
Definition rec_inv2 (a : Attendance) : Prop :=
  isPresent a = true /\
  (open_count (breaks a) <= 1)%nat /\
  (logoutTime a <> None -> find_open (breaks a) = None) /\
  (logoutTime a = None <-> hoursWorked a = None) /\
  (logoutTime a = None <-> overtimeHours a = None) /\
  (status a = early_leave <-> earlyLeaveMinutes a <> None) /\
  (forall m, earlyLeaveMinutes a = Some m -> 30 < m).

Definition emp_inv2 (e : Employee) : Prop :=
  Forall rec_inv2 (attendance e) /\ NoDup (map att_date (attendance e)).

(** ** Today's attendance summary ([GET /attendance/today]) *)

Record StaffMember : Set := mkStaff {
  sm_department : string;
  sm_role : string;
  sm_emp : Employee
}.

(** [matchQuery]: active employees, optionally of one department and
    one role (an empty filter string is ignored). *)
Definition staff_query (department role : string) (l : list StaffMember)
  : list StaffMember :=
  filter (fun m => isActive (sm_emp m)
                   && (String.eqb department "" || String.eqb (sm_department m) department)
                   && (String.eqb role "" || String.eqb (sm_role m) role)) l.

Record TodayEntry : Set := mkTodayEntry {
  te_department : string;
  te_isPresent : bool;
  te_loginTime : option Z;
  te_logoutTime : option Z;
  te_hoursWorked : Q;
  te_overtimeHours : Q;
  te_status : Status;
  te_lateMinutes : Z;
  te_onBreak : bool;
  te_totalBreakTime : Z
}.

Definition is_open (b : Break) : bool :=
  match b_endTime b with None => true | Some _ => false end.

(** One element of [attendanceSummary]. *)
Definition today_entry (now : Z) (m : StaffMember) : TodayEntry :=
  match find_today (day_of now) (attendance (sm_emp m)) with
  | Some a =>
      mkTodayEntry (sm_department m) (isPresent a) (loginTime a) (logoutTime a)
        (or0 (hoursWorked a)) (or0 (overtimeHours a)) (status a) (lateMinutes a)
        (existsb is_open (breaks a)) (totalBreakTime a)
  | None =>
      mkTodayEntry (sm_department m) false None None 0 0 absent 0 false 0
  end.





Record TodaySummary : Set := mkTodaySummary {
  ts_present : Z;
  ts_absent : Z;
  ts_late : Z;
  ts_overtime : Z;
  ts_onBreak : Z;
  ts_total : Z;
  ts_attendancePercentage : Z
}.

Definition countl {A : Type} (f : A -> bool) (l : list A) : Z :=
  Z.of_nat (List.length (filter f l)).

Definition today_summary (entries : list TodayEntry) : TodaySummary :=
  let presentCount := countl te_isPresent entries in
  let lateCount := countl (fun e => Status_eqb (te_status e) late) entries in
  let overtimeCount := countl (fun e => qltb 0 (te_overtimeHours e)) entries in
  let onBreakCount := countl te_onBreak entries in
  let totalEmployees := Z.of_nat (List.length entries) in
  mkTodaySummary presentCount (totalEmployees - presentCount) lateCount
    overtimeCount onBreakCount totalEmployees
    (if 0 <? totalEmployees
     then js_round (inject_Z presentCount / inject_Z totalEmployees * 100)
     else 0).

(** ** Bulk check-in ([POST /bulk/checkin]) *)

Record BulkLocation : Set := mkBulkLocation {
  bl_latitude : Q;
  bl_longitude : Q;
  bl_address : string
}.

Definition bulk_geo (l : BulkLocation) : GeoPoint :=
  mkGeoPoint (bl_latitude l) (bl_longitude l)
    (if String.eqb (bl_address l) "" then "Bulk check-in location" else bl_address l).

(** The loop body for one found employee; without [location] the key
    [checkInLocation] is absent from [attendanceData], so
    [Object.assign] keeps the old one. *)
Definition bulk_checkin_one (now : Z) (wl : string) (loc : option BulkLocation)
  (e : Employee) : result Employee :=
  let today := day_of now in
  let existing := find_today today (attendance e) in
  let already := match existing with
                 | Some a => match loginTime a with Some _ => true | None => false end
                 | None => false
                 end in
  if already then Err AlreadyCheckedIn else
  let shiftStartTime := set_hours today (shift_start (shiftTiming e)) in
  let lm := Z.max 0 ((now - shiftStartTime) / ms_per_minute) in
  let s := if 15 <? lm then late else present in
  let g := match loc with Some l => Some (bulk_geo l) | None => None end in
  let atts :=
    match existing with
    | Some a => replace_today today
                  (assign_checkin today now s lm wl
                     (match g with Some _ => g | None => checkInLocation a end) a)
                  (attendance e)
    | None => attendance e ++ [new_checkin today now s lm wl g]
    end in
  Ok (mkEmployee (isActive e) (shiftTiming e) atts (Some now)).

Record BulkReport : Set := mkBulkReport {
  br_outcomes : list (option Error * Employee);
  br_total : Z;
  br_successful : Z;
  br_failed : Z;
  br_successRate : Z
}.

(** [matched] are the employees whose id is in [employeeIds]; the query
    keeps the active ones. *)
Definition bulk_checkin (now : Z) (wl : string) (loc : option BulkLocation)
  (employeeIds : list Z) (matched : list Employee) : result BulkReport :=
  if Nat.eqb (List.length employeeIds) 0 then Err InvalidInput else
  if Nat.ltb 50 (List.length employeeIds) then Err InvalidInput else
  let outcomes :=
    map (fun e => match bulk_checkin_one now wl loc e with
                  | Ok e' => (None, e')
                  | Err x => (Some x, e)
                  end) (filter isActive matched) in
  let ok := countl (fun o => match fst o with None => true | Some _ => false end) outcomes in
  let ko := countl (fun o => match fst o with None => false | Some _ => true end) outcomes in
  let total := Z.of_nat (List.length employeeIds) in
  Ok (mkBulkReport outcomes total ok ko
        (js_round (inject_Z ok / inject_Z total * 100))).

(** ** Salary summary ([GET /salary/summary/:month/:year]) *)

Record SalaryRow : Set := mkSalaryRow {
  sr_department : string;
  sr_basicSalary : Q;
  sr_grossSalary : Q;
  sr_totalAllowances : Q;
  sr_totalDeductions : JsNum;
  sr_netSalary : JsNum
}.

(** The loop body for one employee. *)
Definition salary_row (department : string) (attendancePercentage : Q)
  (sd : SalaryData) (salary_deductions : option Q) : SalaryRow :=
  let transport_ := 1000%Q in
  let meal_ := 500%Q in
  let mobile_ := 300%Q in
  let performance_ := if Qle_bool 95 attendancePercentage then 2000%Q else 0%Q in
  let pf_ := round_times (js_or (baseSalary sd) (basePay sd)) (12 # 100) in
  let esi_ := round_times (js_or (baseSalary sd) (basePay sd)) (175 # 10000) in
  let tax_ := Num 0 in
  let advance_ := Num (or0 salary_deductions) in
  let totalAllowances_ := (0 + transport_ + meal_ + mobile_ + performance_)%Q in
  let totalDeductions_ := js_add (js_add (js_add (js_add (Num 0) pf_) esi_) tax_) advance_ in
  let netSalary_ := js_sub (Num (or0 (grossSalary sd) + totalAllowances_)%Q) totalDeductions_ in
  mkSalaryRow department (or0 (js_or (baseSalary sd) (basePay sd)))
    (or0 (grossSalary sd)) totalAllowances_ totalDeductions_ netSalary_.

(** [totalPayroll += netSalary] from 0. *)
Definition total_payroll (rows : list SalaryRow) : JsNum :=
  fold_left (fun t r => js_add t (sr_netSalary r)) rows (Num 0).

Definition js_round_num (x : JsNum) : JsNum :=
  match x with Num q => Num (inject_Z (js_round q)) | NaN => NaN end.

(** [Math.round(totalPayroll / employees.length)]; with no employee the
    total is 0 and [0 / 0] is [NaN]. *)
Definition average_salary (rows : list SalaryRow) : JsNum :=
  match total_payroll rows with
  | NaN => NaN
  | Num q =>
      match rows with
      | [] => NaN
      | _ => Num (inject_Z (js_round (q / inject_Z (Z.of_nat (List.length rows)))))
      end
  end.

(** ** Attendance issues of [GET /reports/comprehensive] *)

Inductive Issue : Set :=
| LowAttendance (pct : Z)
| FrequentLate (n : Z)
| EarlyLeaves (n : Z).

Definition issues_of (r : ReportStats) : list Issue :=
  (if rs_attendancePercentage r <? 80 then [LowAttendance (rs_attendancePercentage r)] else [])
  ++ (if 5 <? rs_lateCount r then [FrequentLate (rs_lateCount r)] else [])
  ++ (if 3 <? rs_earlyLeaveCount r then [EarlyLeaves (rs_earlyLeaveCount r)] else []).

Definition issue_flag (r : ReportStats) : bool :=
  (rs_attendancePercentage r <? 80) || (5 <? rs_lateCount r).

(** The top performers are taken with [employeeDetails.sort(...)], which
    sorts the array in place: the issues filter then reads it in
    descending [performanceScore] order. *)
Definition attendance_issues (details : list ReportStats) : list (ReportStats * list Issue) :=
  map (fun r => (r, issues_of r))
    (filter issue_flag (sort_desc rs_performanceScore details)).

(** ** Recent attendance of [GET /:id] *)

Definition recent_attendance (now : Z) (atts : list Attendance) : list Attendance :=
  let thirtyDaysAgo := now - 30 * ms_per_day in
  firstn 30 (sort_desc (fun a => inject_Z (att_date a * ms_per_day))
               (filter (fun a => thirtyDaysAgo <=? att_date a * ms_per_day) atts)).

(** ** Pagination of [GET /] *)

Record Pagination : Set := mkPagination {
  currentPage : Z;
  totalPages : Z;
  totalRecords : Z;
  pg_limit : Z;
  hasNext : bool;
  hasPrev : bool
}.

(** For integer [page] and [limit] query values. *)
Definition pagination (page limit total : Z) : Pagination :=
  mkPagination page (Qceiling (inject_Z total / inject_Z limit)) total limit
    (page * limit <? total) (1 <? page).

(** ** Concerned employees of [GET /stats/attendance] *)



(** ** CSV export ([GET /export/:format]) *)

(** A value of an export row: a string, or another value shown by
    [join] through its string form. *)
Inductive CsvValue : Set :=
| VStr (s : string)
| VOther (shown : string).

Definition dq : ascii := "034"%char.

Fixpoint has_char (c : ascii) (s : string) : bool :=
  match s with
  | EmptyString => false
  | String a r => Ascii.eqb a c || has_char c r
  end.

(** [typeof value === 'string' && value.includes(',') ? `"${value}"` : value] *)
Definition csv_cell (v : CsvValue) : string :=
  match v with
  | VStr s => if has_char ","%char s then String dq (s ++ String dq EmptyString) else s
  | VOther r => r
  end.

(** [Object.values(row).map(...).join(',')] *)
Definition csv_row (vals : list CsvValue) : string :=
  String.concat "," (map csv_cell vals).

Definition csv_raw (v : CsvValue) : string :=
  match v with VStr s => s | VOther r => r end.

(** No double quote in a value, and no comma in a non-string one. *)
Definition csv_safe (v : CsvValue) : Prop :=
  match v with
  | VStr s => has_char dq s = false
  | VOther r => has_char dq r = false /\ has_char ","%char r = false
  end.

(** Reading a CSV line back: split at the commas outside double quotes
    and drop the quotes. *)
Fixpoint read_fields (inq : bool) (cur : string) (s : string) : list string :=
  match s with
  | EmptyString => [cur]
  | String c r =>
      if Ascii.eqb c dq then read_fields (negb inq) cur r
      else if Ascii.eqb c ","%char && negb inq
           then cur :: read_fields false EmptyString r
           else read_fields inq (cur ++ String c EmptyString) r
  end.

(** ** Lemmas on the attendance array *)

Lemma find_today_date d l a :
  find_today d l = Some a -> att_date a = d.
Proof.
  induction l as [|x r IH]; simpl; [discriminate|].
  destruct (Z.eqb_spec (att_date x) d); [intros H; inversion H; subst; auto | auto].
Qed.

Lemma find_today_In d l a : find_today d l = Some a -> In a l.
Proof.
  induction l as [|x r IH]; simpl; [discriminate|].
  destruct (Z.eqb (att_date x) d); [intros H; inversion H; auto | auto].
Qed.

Lemma find_today_Forall (P : Attendance -> Prop) d l a :
  Forall P l -> find_today d l = Some a -> P a.
Proof.
  intros HF Hf. rewrite Forall_forall in HF. apply HF, (find_today_In d), Hf.
Qed.

Lemma replace_today_Forall (P : Attendance -> Prop) d a' l :
  Forall P l -> P a' -> Forall P (replace_today d a' l).
Proof.
  induction 1 as [|x r Hx Hr IH]; intros Ha; simpl; [constructor|].
  destruct (Z.eqb (att_date x) d); constructor; auto.
Qed.

Lemma find_replace_today d a a' l :
  find_today d l = Some a -> att_date a' = d ->
  find_today d (replace_today d a' l) = Some a'.
Proof.
  induction l as [|x r IH]; simpl; [discriminate|].
  destruct (Z.eqb_spec (att_date x) d) as [E|E]; intros Hf Hd; simpl.
  - rewrite Hd, Z.eqb_refl. reflexivity.
  - rewrite (proj2 (Z.eqb_neq _ _) E). auto.
Qed.

Lemma find_replace_other d d' a' l :
  att_date a' = d' -> d <> d' ->
  find_today d (replace_today d' a' l) = find_today d l.
Proof.
  intros Hd' Hne. induction l as [|x r IH]; simpl; [reflexivity|].
  destruct (Z.eqb_spec (att_date x) d') as [E'|E']; simpl.
  - rewrite (proj2 (Z.eqb_neq (att_date a') d)) by congruence.
    rewrite (proj2 (Z.eqb_neq (att_date x) d)) by congruence. reflexivity.
  - destruct (Z.eqb (att_date x) d); auto.
Qed.

Lemma find_today_app_none d l x :
  find_today d l = None ->
  find_today d (l ++ [x]) = if Z.eqb (att_date x) d then Some x else None.
Proof.
  induction l as [|y r IH]; simpl; intros H.
  - destruct (Z.eqb (att_date x) d); reflexivity.
  - destruct (Z.eqb (att_date y) d); [discriminate | auto].
Qed.

Lemma find_today_app_some d l x a :
  find_today d l = Some a -> find_today d (l ++ [x]) = Some a.
Proof.
  induction l as [|y r IH]; simpl; [discriminate|].
  destruct (Z.eqb (att_date y) d); auto.
Qed.

(** ** Lemmas on breaks *)

Lemma sum_durations_acc bs acc :
  Forall break_wf bs ->
  fold_left (fun t b => t + dur0 b) bs acc = acc + closed_sum bs.
Proof.
  intros H. revert acc. induction H as [|b r Hb Hr IH]; intros acc; simpl.
  - lia.
  - rewrite IH. unfold break_wf, dur0 in *.
    destruct (b_endTime b) as [t|].
    + lia.
    + rewrite (proj1 Hb eq_refl). lia.
Qed.

Lemma sum_durations_closed bs :
  Forall break_wf bs -> sum_durations bs = closed_sum bs.
Proof. intros H. unfold sum_durations. rewrite sum_durations_acc; auto. Qed.

Lemma close_first_open_wf now bs :
  Forall break_wf bs -> Forall break_wf (close_first_open now bs).
Proof.
  induction 1 as [|b r Hb Hr IH]; simpl; [constructor|].
  destruct (b_endTime b) eqn:E; constructor; auto.
  unfold break_wf; simpl; split; discriminate.
Qed.

Lemma close_first_open_none now bs :
  find_open bs = None -> close_first_open now bs = bs.
Proof.
  induction bs as [|b r IH]; simpl; [reflexivity|].
  destruct (b_endTime b); [intros H; rewrite IH; auto | discriminate].
Qed.

Lemma closed_sum_app_open bs b :
  b_endTime b = None -> closed_sum (bs ++ [b]) = closed_sum bs.
Proof.
  intros Hb. induction bs as [|x r IH]; simpl.
  - rewrite Hb. reflexivity.
  - rewrite IH. reflexivity.
Qed.

Lemma force_close_inv now a :
  Forall break_wf (breaks a) -> totalBreakTime a = closed_sum (breaks a) ->
  Forall break_wf (breaks (force_close now a)) /\
  totalBreakTime (force_close now a) = closed_sum (breaks (force_close now a)) /\
  breaks (force_close now a) = close_first_open now (breaks a).
Proof.
  intros Hwf Htot. unfold force_close.
  destruct (find_open (breaks a)) eqn:Ho; simpl.
  - pose proof (close_first_open_wf now _ Hwf) as Hwf'.
    split; [exact Hwf'|]. split; [apply sum_durations_closed; exact Hwf'|].
    reflexivity.
  - rewrite close_first_open_none by exact Ho. auto.
Qed.

(** ** The record fields check-out writes *)

Lemma checkout_record_fields now loc st lt a :
  let a' := checkout_record now loc st lt a in
  att_date a' = att_date a /\ loginTime a' = loginTime a /\
  logoutTime a' = Some now /\
  breaks a' = breaks (force_close now a) /\
  totalBreakTime a' = totalBreakTime (force_close now a).
Proof.
  unfold checkout_record.
  assert (Hfc : att_date (force_close now a) = att_date a /\
                loginTime (force_close now a) = loginTime a).
  { unfold force_close. destruct (find_open (breaks a)); auto. }
  destruct Hfc as [Hd Hl].
  destruct (qltb _ _); [simpl; auto|].
  destruct (30 <? _); [simpl; auto|].
  destruct (qltb _ _); simpl; auto.
Qed.

Lemma checkout_record_inv now loc st lt a :
  rec_inv a -> rec_inv (checkout_record now loc st lt a).
Proof.
  intros (Hl & _ & Hwf & Htot).
  destruct (checkout_record_fields now loc st lt a) as (_ & Hl' & Hout & Hb & Ht).
  destruct (force_close_inv now a Hwf Htot) as (Hwf' & Htot' & _).
  repeat split.
  - rewrite Hl'. exact Hl.
  - rewrite Hout. discriminate.
  - rewrite Hb. exact Hwf'.
  - rewrite Hb, Ht. exact Htot'.
Qed.

Lemma checkin_inv now loc wl e e' :
  emp_inv e -> checkin now loc wl e = Ok e' -> emp_inv e'.
Proof.
  unfold checkin, emp_inv. intros Hinv H.
  destruct (negb (isActive e)); [discriminate|].
  set (s := if 15 <? _ then late else present) in H.
  assert (Hs : s = present \/ s = late).
  { unfold s. destruct (15 <? _); auto. }
  destruct (find_today (day_of now) (attendance e)) as [a|] eqn:Hf.
  - destruct (loginTime a); [discriminate|].
    inversion H; subst; simpl.
    apply replace_today_Forall; [exact Hinv|].
    repeat split; simpl; auto; try discriminate.
  - inversion H; subst; simpl.
    apply Forall_app; split; [exact Hinv|].
    constructor; [|constructor].
    repeat split; simpl; auto; try discriminate.
Qed.

Lemma checkout_inv now loc e e' :
  emp_inv e -> checkout now loc e = Ok e' -> emp_inv e'.
Proof.
  unfold checkout, emp_inv. intros Hinv H.
  destruct (find_today (day_of now) (attendance e)) as [a|] eqn:Hf; [|discriminate].
  destruct (loginTime a) as [lt|]; [|discriminate].
  destruct (logoutTime a); [discriminate|].
  inversion H; subst; simpl.
  apply replace_today_Forall; [exact Hinv|].
  apply checkout_record_inv. exact (find_today_Forall _ _ _ _ Hinv Hf).
Qed.

Lemma break_start_inv now ty e e' :
  emp_inv e -> break_start now ty e = Ok e' -> emp_inv e'.
Proof.
  unfold break_start, emp_inv. intros Hinv H.
  destruct (negb (valid_break_type ty)); [discriminate|].
  destruct (find_today (day_of now) (attendance e)) as [a|] eqn:Hf; [|discriminate].
  destruct (loginTime a), (logoutTime a), (find_open (breaks a));
    try discriminate.
  inversion H; subst; simpl.
  apply replace_today_Forall; [exact Hinv|].
  destruct (find_today_Forall _ _ _ _ Hinv Hf) as (Hl & Hst & Hwf & Htot).
  unfold set_breaks, set_breaks_total; repeat split; simpl; auto.
  - apply Forall_app; split; [exact Hwf|].
    constructor; [|constructor]. unfold break_wf; simpl; tauto.
  - rewrite closed_sum_app_open by reflexivity. exact Htot.
Qed.

Lemma break_end_inv now e e' :
  emp_inv e -> break_end now e = Ok e' -> emp_inv e'.
Proof.
  unfold break_end, emp_inv. intros Hinv H.
  destruct (find_today (day_of now) (attendance e)) as [a|] eqn:Hf; [|discriminate].
  destruct (find_open (breaks a)); [|discriminate].
  inversion H; subst; simpl.
  apply replace_today_Forall; [exact Hinv|].
  destruct (find_today_Forall _ _ _ _ Hinv Hf) as (Hl & Hst & Hwf & Htot).
  pose proof (close_first_open_wf now _ Hwf) as Hwf'.
  repeat split; simpl; auto.
  apply sum_durations_closed; exact Hwf'.
Qed.

Lemma exec_inv op e : emp_inv e -> emp_inv (snd (exec op e)).
Proof.
  intros Hinv. unfold exec.
  destruct (apply_op op e) as [e'|x] eqn:H; simpl; [|exact Hinv].
  destruct op; simpl in H.
  - eapply checkin_inv; eauto.
  - eapply checkout_inv; eauto.
  - eapply break_start_inv; eauto.
  - eapply break_end_inv; eauto.
  - inversion H; subst; exact Hinv.
  - inversion H; subst; exact Hinv.
Qed.

Lemma run_inv ops e : emp_inv e -> emp_inv (run ops e).
Proof.
  revert e; induction ops as [|op r IH]; intros e H; simpl; auto.
  apply IH, exec_inv, H.
Qed.

Lemma reachable_inv e : reachable e -> emp_inv e.
Proof.
  intros (act & st & ops & ->). apply run_inv. constructor.
Qed.

Lemma checkout_ok_inv now loc e e' :
  checkout now loc e = Ok e' ->
  exists a lt, find_today (day_of now) (attendance e) = Some a /\
    loginTime a = Some lt /\ logoutTime a = None /\
    e' = with_attendance
           (replace_today (day_of now)
              (checkout_record now loc (shiftTiming e) lt a)
              (attendance e)) e.
Proof.
  unfold checkout. intros H.
  destruct (find_today (day_of now) (attendance e)) as [a|] eqn:Hf; [|discriminate].
  destruct (loginTime a) as [lt|] eqn:Hl; [|discriminate].
  destruct (logoutTime a) eqn:Ho; [discriminate|].
  inversion H; subst. exists a, lt. auto.
Qed.

Lemma checkout_finds_record now loc e e' :
  checkout now loc e = Ok e' ->
  exists a lt, find_today (day_of now) (attendance e) = Some a /\
    loginTime a = Some lt /\ logoutTime a = None /\
    find_today (day_of now) (attendance e') =
      Some (checkout_record now loc (shiftTiming e) lt a).
Proof.
  intros H. destruct (checkout_ok_inv _ _ _ _ H) as (a & lt & Hf & Hl & Ho & ->).
  exists a, lt. repeat split; auto. simpl.
  apply (find_replace_today _ a); auto.
  destruct (checkout_record_fields now loc (shiftTiming e) lt a) as (Hd & _).
  rewrite Hd. exact (find_today_date _ _ _ Hf).
Qed.

Lemma break_end_finds_record now e e' :
  break_end now e = Ok e' ->
  exists a, find_today (day_of now) (attendance e) = Some a /\
    find_open (breaks a) <> None /\
    find_today (day_of now) (attendance e') =
      Some (set_breaks_total (close_first_open now (breaks a))
              (sum_durations (close_first_open now (breaks a))) a).
Proof.
  unfold break_end. intros H.
  destruct (find_today (day_of now) (attendance e)) as [a|] eqn:Hf; [|discriminate].
  destruct (find_open (breaks a)) eqn:Ho; [|discriminate].
  inversion H; subst. exists a. repeat split; [congruence|]. simpl.
  apply (find_replace_today _ a); auto. exact (find_today_date _ _ _ Hf).
Qed.

(** ** C3: break totals *)

(** Claim C3: after every break-end and every check-out, today's record
    has [totalBreakTime] equal to the sum of [durationMinutes] over its
    closed breaks (a break is closed exactly when it carries a duration),
    whatever the number of breaks; check-out first closes the still-open
    break at the check-out time (see [close_break]). *)
Theorem break_total_is_closed_sum e now loc e' :
  reachable e ->
  (break_end now e = Ok e' \/ checkout now loc e = Ok e') ->
  exists a, find_today (day_of now) (attendance e') = Some a /\
    Forall break_wf (breaks a) /\
    totalBreakTime a = closed_sum (breaks a) /\
    (checkout now loc e = Ok e' ->
     exists a0, find_today (day_of now) (attendance e) = Some a0 /\
                breaks a = close_first_open now (breaks a0)).
Proof.
  intros Hr Hop.
  pose proof (reachable_inv e Hr) as Hinv.
  assert (Hinv' : emp_inv e').
  { destruct Hop as [H|H]; [eapply break_end_inv | eapply checkout_inv]; eauto. }
  assert (Hex : exists a, find_today (day_of now) (attendance e') = Some a).
  { destruct Hop as [H|H].
    - destruct (break_end_finds_record _ _ _ H) as (a & _ & _ & Hf'). eauto.
    - destruct (checkout_finds_record _ _ _ _ H) as (a & lt & _ & _ & _ & Hf'). eauto. }
  destruct Hex as (a & Hf). exists a.
  destruct (find_today_Forall _ _ _ _ Hinv' Hf) as (_ & _ & Hwf & Htot).
  repeat split; auto.
  intros Hc. destruct (checkout_finds_record _ _ _ _ Hc) as (b & lt & Hfb & _ & _ & Hf').
  rewrite Hf in Hf'. inversion Hf'; subst a.
  exists b. split; [exact Hfb|].
  destruct (checkout_record_fields now loc (shiftTiming e) lt b) as (_ & _ & _ & Hb & _).
  rewrite Hb.
  destruct (find_today_Forall _ _ _ _ Hinv Hfb) as (_ & _ & Hwf0 & Htot0).
  destruct (force_close_inv now b Hwf0 Htot0) as (_ & _ & Hfc). exact Hfc.
Qed.

(** ** C1: check-out metrics and status *)

Lemma qltb_spec x y : qltb x y = true <-> (x < y)%Q.
Proof.
  unfold qltb. rewrite negb_true_iff. split.
  - intros H. apply Qnot_le_lt. intros Hle. apply Qle_bool_iff in Hle. congruence.
  - intros H. destruct (Qle_bool y x) eqn:E; [|reflexivity].
    apply Qle_bool_iff in E. exfalso. apply (Qlt_not_le _ _ H E).
Qed.

Lemma force_close_status now a : status (force_close now a) = status a.
Proof. unfold force_close. destruct (find_open (breaks a)); reflexivity. Qed.

Lemma checkout_record_spec now loc st lt a :
  let a' := checkout_record now loc st lt a in
  let hw := hours_worked now lt (totalBreakTime (force_close now a)) in
  let ot := qmax 0 (hw - standard_shift_hours st) in
  let el := Z.max 0 ((set_hours (day_of now) (shift_end st) - now) / ms_per_minute) in
  hoursWorked a' = Some (round2 hw) /\ overtimeHours a' = Some (round2 ot) /\
  (qltb (1 # 2) ot = true -> status a' = overtime) /\
  (qltb (1 # 2) ot = false -> 30 < el ->
     status a' = early_leave /\ earlyLeaveMinutes a' = Some el) /\
  (qltb (1 # 2) ot = false -> el <= 30 -> qltb hw 4 = true ->
     status a' = half_day) /\
  (qltb (1 # 2) ot = false -> el <= 30 -> qltb hw 4 = false ->
     status a' = status a).
Proof.
  cbv zeta. unfold checkout_record. cbv zeta.
  rewrite <- (force_close_status now a).
  destruct (qltb (1 # 2) _) eqn:E1.
  - simpl. repeat split; intros; discriminate.
  - destruct (30 <? _) eqn:E2.
    + apply Z.ltb_lt in E2. simpl. repeat split; intros; auto; lia.
    + apply Z.ltb_ge in E2. destruct (qltb _ 4) eqn:E3; simpl;
        repeat split; intros; try lia; auto; discriminate.
Qed.

(** Claim C1: on a successful check-out at [now] of an employee checked
    in today at [lt], [hoursWorked] is
    [((now - lt)/60000 - totalBreakMinutes)/60] with the total taken over
    the closed breaks, [overtimeHours] is
    [max(0, hoursWorked - standardShiftHours)], both stored rounded to
    two decimals; [earlyLeaveMinutes] is
    [max(0, floor((shiftEnd - now)/60000))]; the status is [overtime]
    if [overtimeHours > 0.5], else [early-leave] (recording the minutes)
    if [earlyLeaveMinutes > 30], else [half-day] if [hoursWorked < 4],
    else the check-in status, which is [present] or [late]. *)
Theorem checkout_metrics_and_status e now loc e' :
  reachable e -> checkout now loc e = Ok e' ->
  exists a lt a',
    find_today (day_of now) (attendance e) = Some a /\
    loginTime a = Some lt /\
    find_today (day_of now) (attendance e') = Some a' /\
    let hw := ((inject_Z (now - lt) / inject_Z 60000
                - inject_Z (closed_sum (breaks a'))) / 60)%Q in
    let ot := qmax 0 (hw - standard_shift_hours (shiftTiming e)) in
    let el := Z.max 0 ((set_hours (day_of now) (shift_end (shiftTiming e))
                        - now) / 60000) in
    hoursWorked a' = Some (round2 hw) /\
    overtimeHours a' = Some (round2 ot) /\
    ((1 # 2 < ot)%Q -> status a' = overtime) /\
    (~ (1 # 2 < ot)%Q -> 30 < el ->
       status a' = early_leave /\ earlyLeaveMinutes a' = Some el) /\
    (~ (1 # 2 < ot)%Q -> el <= 30 -> (hw < 4)%Q -> status a' = half_day) /\
    (~ (1 # 2 < ot)%Q -> el <= 30 -> ~ (hw < 4)%Q -> status a' = status a) /\
    (status a = present \/ status a = late).
Proof.
  intros Hr Hc.
  pose proof (reachable_inv e Hr) as Hinv.
  destruct (checkout_finds_record _ _ _ _ Hc) as (a & lt & Hf & Hl & Ho & Hf').
  exists a, lt, (checkout_record now loc (shiftTiming e) lt a).
  split; [exact Hf|]. split; [exact Hl|]. split; [exact Hf'|].
  destruct (find_today_Forall _ _ _ _ Hinv Hf) as (_ & Hst & Hwf & Htot).
  destruct (force_close_inv now a Hwf Htot) as (_ & Htot' & _).
  destruct (checkout_record_fields now loc (shiftTiming e) lt a) as (_ & _ & _ & Hb & _).
  rewrite Hb, <- Htot'.
  destruct (checkout_record_spec now loc (shiftTiming e) lt a)
    as (H1 & H2 & H3 & H4 & H5 & H6).
  cbv zeta. unfold hours_worked, ms_per_minute in *.
  assert (Hneg : forall x y, ~ (x < y)%Q -> qltb x y = false).
  { intros x y Hn. destruct (qltb x y) eqn:E; auto.
    apply qltb_spec in E. contradiction. }
  split; [exact H1|]. split; [exact H2|].
  split; [intros Hq; apply H3, qltb_spec, Hq|].
  split; [intros Hq Hel; apply H4; auto|].
  split; [intros Hq Hel Hh; apply H5; auto; apply qltb_spec, Hh|].
  split; [intros Hq Hel Hh; apply H6; auto|].
  apply Hst, Ho.
Qed.

Lemma break_total_is_closed_sum_witness :
  reachable emp_on_break /\
  checkout (t_at 17 0) None emp_on_break = Ok emp_out_from_break /\
  exists a, find_today (day_of (t_at 17 0)) (attendance emp_out_from_break) = Some a /\
    Forall break_wf (breaks a) /\
    totalBreakTime a = closed_sum (breaks a) /\
    (checkout (t_at 17 0) None emp_on_break = Ok emp_out_from_break ->
     exists a0, find_today (day_of (t_at 17 0)) (attendance emp_on_break) = Some a0 /\
                breaks a = close_first_open (t_at 17 0) (breaks a0)).
Proof.
  assert (Hr : reachable emp_on_break).
  { exists true, shift_default, morning_ops. reflexivity. }
  assert (Hc : checkout (t_at 17 0) None emp_on_break = Ok emp_out_from_break).
  { vm_compute. reflexivity. }
  split; [exact Hr|]. split; [exact Hc|].
  exact (break_total_is_closed_sum emp_on_break (t_at 17 0) None emp_out_from_break
           Hr (or_intror Hc)).
Defined.

Lemma checkout_metrics_and_status_witness :
  reachable emp_back_from_break /\
  checkout (t_at 17 0) None emp_back_from_break = Ok emp_out /\
  exists a lt a',
    find_today (day_of (t_at 17 0)) (attendance emp_back_from_break) = Some a /\
    loginTime a = Some lt /\
    find_today (day_of (t_at 17 0)) (attendance emp_out) = Some a' /\
    let hw := ((inject_Z (t_at 17 0 - lt) / inject_Z 60000
                - inject_Z (closed_sum (breaks a'))) / 60)%Q in
    let ot := qmax 0 (hw - standard_shift_hours (shiftTiming emp_back_from_break)) in
    let el := Z.max 0 ((set_hours (day_of (t_at 17 0))
                          (shift_end (shiftTiming emp_back_from_break))
                        - t_at 17 0) / 60000) in
    hoursWorked a' = Some (round2 hw) /\
    overtimeHours a' = Some (round2 ot) /\
    ((1 # 2 < ot)%Q -> status a' = overtime) /\
    (~ (1 # 2 < ot)%Q -> 30 < el ->
       status a' = early_leave /\ earlyLeaveMinutes a' = Some el) /\
    (~ (1 # 2 < ot)%Q -> el <= 30 -> (hw < 4)%Q -> status a' = half_day) /\
    (~ (1 # 2 < ot)%Q -> el <= 30 -> ~ (hw < 4)%Q -> status a' = status a) /\
    (status a = present \/ status a = late).
Proof.
  assert (Hr : reachable emp_back_from_break).
  { exists true, shift_default, (morning_ops ++ [BreakEnd (t_at 12 30)]). reflexivity. }
  assert (Hc : checkout (t_at 17 0) None emp_back_from_break = Ok emp_out).
  { vm_compute. reflexivity. }
  split; [exact Hr|]. split; [exact Hc|].
  exact (checkout_metrics_and_status emp_back_from_break (t_at 17 0) None emp_out Hr Hc).
Defined.

(** ** Check-in *)

Lemma checkin_ok now loc wl e e' :
  checkin now loc wl e = Ok e' ->
  let d := day_of now in
  let lm := Z.max 0 ((now - set_hours d (shift_start (shiftTiming e))) / ms_per_minute) in
  let s := if 15 <? lm then late else present in
  isActive e = true /\
  ((find_today d (attendance e) = None /\
    e' = mkEmployee (isActive e) (shiftTiming e)
           (attendance e ++ [new_checkin d now s lm wl loc]) (Some now)) \/
   (exists a, find_today d (attendance e) = Some a /\ loginTime a = None /\
    e' = mkEmployee (isActive e) (shiftTiming e)
           (replace_today d (assign_checkin d now s lm wl loc a) (attendance e))
           (Some now))).
Proof.
  unfold checkin. intros H. cbv zeta.
  destruct (isActive e); [|discriminate]. simpl in H.
  destruct (find_today (day_of now) (attendance e)) as [a|] eqn:Hf.
  - destruct (loginTime a) eqn:Hl; [discriminate|].
    inversion H; subst. split; [reflexivity|]. right. exists a. auto.
  - inversion H; subst. split; [reflexivity|]. left. auto.
Qed.

Lemma checkin_finds_record now loc wl e e' :
  checkin now loc wl e = Ok e' ->
  let d := day_of now in
  let lm := Z.max 0 ((now - set_hours d (shift_start (shiftTiming e))) / ms_per_minute) in
  let s := if 15 <? lm then late else present in
  isActive e' = true /\ shiftTiming e' = shiftTiming e /\
  exists a', find_today d (attendance e') = Some a' /\
    loginTime a' = Some now /\ status a' = s /\ lateMinutes a' = lm /\
    workLocation a' = wl /\ checkInLocation a' = loc /\ breaks a' = [] /\
    totalBreakTime a' = 0 /\ isPresent a' = true.
Proof.
  intros H. destruct (checkin_ok _ _ _ _ _ H) as [Ha [(Hf & ->) | (a & Hf & Hl & ->)]];
    cbv zeta; simpl; (split; [exact Ha|]); (split; [reflexivity|]).
  - eexists. split.
    + rewrite (find_today_app_none _ _ _ Hf). simpl. rewrite Z.eqb_refl. reflexivity.
    + simpl. repeat split.
  - eexists. split.
    + apply (find_replace_today _ a); [exact Hf | reflexivity].
    + simpl. repeat split.
Qed.

(** Claim C2: a successful check-in at [t] stores
    [lateMinutes = max(0, floor((t - shiftStart)/60000))], the shift start
    defaulting to 09:00 when unset, and the status [late] exactly when
    [lateMinutes > 15], [present] otherwise. *)
Theorem checkin_late_minutes e t loc wl e' :
  checkin t loc wl e = Ok e' ->
  exists a', find_today (day_of t) (attendance e') = Some a' /\
    loginTime a' = Some t /\
    lateMinutes a' =
      Z.max 0 ((t - set_hours (day_of t) (shift_start (shiftTiming e))) / 60000) /\
    (status a' = late <-> 15 < lateMinutes a') /\
    (status a' = present <-> lateMinutes a' <= 15) /\
    (startTime (shiftTiming e) = None -> shift_start (shiftTiming e) = (9, 0)).
Proof.
  intros H. destruct (checkin_finds_record _ _ _ _ _ H)
    as (_ & _ & a' & Hf & Hl & Hs & Hlm & _).
  exists a'. split; [exact Hf|]. split; [exact Hl|].
  split; [exact Hlm|].
  rewrite Hs, Hlm. unfold ms_per_minute.
  split; [|split; [|unfold shift_start; intros ->; reflexivity]].
  - destruct (Z.ltb_spec 15 (Z.max 0 ((t - set_hours (day_of t)
                                  (shift_start (shiftTiming e))) / (1000 * 60))));
      split; intros; auto; try discriminate; lia.
  - destruct (Z.ltb_spec 15 (Z.max 0 ((t - set_hours (day_of t)
                                  (shift_start (shiftTiming e))) / (1000 * 60))));
      split; intros; auto; try discriminate; lia.
Qed.

(** ** Same-day check-in *)

Lemma replace_has_login d d' x y l :
  find_today d' l = Some x -> att_date y = d' -> loginTime y = loginTime x ->
  has_login d l -> has_login d (replace_today d' y l).
Proof.
  intros Hx Hy Hl (a & Ha & Hla).
  destruct (Z.eq_dec d d') as [->|Hne].
  - exists y. split; [apply (find_replace_today _ x); auto|].
    rewrite Ha in Hx. inversion Hx; subst. rewrite Hl. exact Hla.
  - exists a. rewrite find_replace_other; auto.
Qed.

Lemma exec_has_login d op e :
  (forall b, op <> SetActive b) -> has_login d (attendance e) ->
  has_login d (attendance (snd (exec op e))) /\
  isActive (snd (exec op e)) = isActive e.
Proof.
  intros Hop Hhl. unfold exec.
  destruct (apply_op op e) as [e'|x] eqn:H; simpl; [|auto].
  destruct op as [now loc wl|now loc|now ty|now|b|st]; simpl in H.
  - destruct (checkin_ok _ _ _ _ _ H) as [Ha [(Hf & ->) | (a & Hf & Hl & ->)]];
      simpl; (split; [|reflexivity]).
    + destruct Hhl as (a & Ha' & Hla). exists a. split; auto.
      apply find_today_app_some. exact Ha'.
    + destruct (Z.eq_dec d (day_of now)) as [->|Hne].
      * destruct Hhl as (a' & Ha' & Hla). rewrite Ha' in Hf. inversion Hf; subst. contradiction.
      * destruct Hhl as (a' & Ha' & Hla). exists a'. split; auto.
        rewrite find_replace_other; auto.
  - destruct (checkout_ok_inv _ _ _ _ H) as (a & lt & Hf & Hl & Ho & ->). simpl.
    split; [|reflexivity].
    destruct (checkout_record_fields now loc (shiftTiming e) lt a) as (Hd & Hl' & _).
    eapply replace_has_login; eauto. rewrite Hd. exact (find_today_date _ _ _ Hf).
  - unfold break_start in H.
    destruct (negb (valid_break_type ty)); [discriminate|].
    destruct (find_today (day_of now) (attendance e)) as [a|] eqn:Hf; [|discriminate].
    destruct (loginTime a), (logoutTime a), (find_open (breaks a)); try discriminate.
    inversion H; subst; simpl. split; [|reflexivity].
    eapply replace_has_login; eauto. exact (find_today_date _ _ _ Hf).
  - unfold break_end in H.
    destruct (find_today (day_of now) (attendance e)) as [a|] eqn:Hf; [|discriminate].
    destruct (find_open (breaks a)); [|discriminate].
    inversion H; subst; simpl. split; [|reflexivity].
    eapply replace_has_login; eauto. exact (find_today_date _ _ _ Hf).
  - exfalso. exact (Hop b eq_refl).
  - inversion H; subst; simpl. auto.
Qed.

Lemma run_has_login d ops e :
  Forall (fun op => forall b, op <> SetActive b) ops ->
  has_login d (attendance e) ->
  has_login d (attendance (run ops e)) /\ isActive (run ops e) = isActive e.
Proof.
  intros Hops. revert e. induction Hops as [|op r Hop Hr IH]; intros e Hhl; simpl.
  - auto.
  - destruct (exec_has_login d op e Hop Hhl) as [Hhl' Hact].
    destruct (IH _ Hhl') as [H1 H2]. rewrite H2, Hact. auto.
Qed.

Lemma checkin_rejects_logged_in now loc wl e :
  isActive e = true -> has_login (day_of now) (attendance e) ->
  checkin now loc wl e = Err AlreadyCheckedIn.
Proof.
  intros Hact (a & Hf & Hl). unfold checkin. rewrite Hact. simpl.
  rewrite Hf. destruct (loginTime a); [reflexivity | contradiction].
Qed.

(** Claim C6: once a check-in has succeeded, every later check-in on the
    same calendar day (whatever break or check-out requests come in
    between, the employee not being deactivated) fails with
    [AlreadyCheckedIn] and leaves the stored employee unchanged. *)
Theorem second_checkin_rejected e now loc wl e1 ops now' loc' wl' :
  checkin now loc wl e = Ok e1 ->
  Forall (fun op => forall b, op <> SetActive b) ops ->
  day_of now' = day_of now ->
  exec (CheckIn now' loc' wl') (run ops e1) = (Some AlreadyCheckedIn, run ops e1).
Proof.
  intros H Hops Hday.
  destruct (checkin_finds_record _ _ _ _ _ H) as (Hact & _ & a' & Hf & Hl & _).
  assert (Hhl : has_login (day_of now) (attendance e1)).
  { exists a'. rewrite Hl. split; [exact Hf | discriminate]. }
  destruct (run_has_login _ ops e1 Hops Hhl) as [Hhl' Hact'].
  unfold exec; simpl. rewrite checkin_rejects_logged_in; auto.
  - congruence.
  - rewrite Hday. exact Hhl'.
Qed.

(** Claim C8 (as amended): on the day of an existing record, check-in is
    refused with [AlreadyCheckedIn] as soon as the record has a
    [loginTime], checked out or not; only a record without [loginTime]
    is overwritten in place (fresh login time, status, late minutes,
    empty breaks, no new record); and every record the routes create
    carries a [loginTime]. *)
Theorem checkin_same_day_policy e now loc wl a :
  isActive e = true ->
  find_today (day_of now) (attendance e) = Some a ->
  let d := day_of now in
  let lm := Z.max 0 ((now - set_hours d (shift_start (shiftTiming e))) / ms_per_minute) in
  let s := if 15 <? lm then late else present in
  (loginTime a <> None -> checkin now loc wl e = Err AlreadyCheckedIn) /\
  (loginTime a = None ->
     checkin now loc wl e =
       Ok (mkEmployee (isActive e) (shiftTiming e)
             (replace_today d (assign_checkin d now s lm wl loc a) (attendance e))
             (Some now))) /\
  (reachable e -> loginTime a <> None).
Proof.
  intros Hact Hf. cbv zeta. split; [|split].
  - intros Hl. apply checkin_rejects_logged_in; auto. exists a; auto.
  - intros Hl. unfold checkin. rewrite Hact. simpl. rewrite Hf, Hl. reflexivity.
  - intros Hr. pose proof (reachable_inv e Hr) as Hinv.
    destruct (find_today_Forall _ _ _ _ Hinv Hf) as (Hl & _). exact Hl.
Qed.

(** ** Guards *)

Lemma exec_error_unchanged op e x :
  fst (exec op e) = Some x -> snd (exec op e) = e.
Proof. unfold exec. destruct (apply_op op e); simpl; congruence. Qed.

(** Claim C7 (as amended): check-out fails with [NotCheckedIn] exactly
    when today has no record or it has no [loginTime], and with
    [AlreadyCheckedOut] exactly when today's record has both times;
    break-start fails with [BreakInProgress] exactly when the break type
    is valid and today's record is checked in, not checked out, with a
    break open; break-end fails with [NoOpenBreak] exactly when today's
    record exists with no open break, and with [NotFound] exactly when
    there is no record today; a failed request stores nothing. *)
Theorem attendance_guards e now loc ty :
  let today := find_today (day_of now) (attendance e) in
  (fst (exec (CheckOut now loc) e) = Some NotCheckedIn <->
     forall a, today = Some a -> loginTime a = None) /\
  (fst (exec (CheckOut now loc) e) = Some AlreadyCheckedOut <->
     exists a, today = Some a /\ loginTime a <> None /\ logoutTime a <> None) /\
  (fst (exec (BreakStart now ty) e) = Some BreakInProgress <->
     valid_break_type ty = true /\
     exists a, today = Some a /\ loginTime a <> None /\ logoutTime a = None /\
               find_open (breaks a) <> None) /\
  (fst (exec (BreakEnd now) e) = Some NoOpenBreak <->
     exists a, today = Some a /\ find_open (breaks a) = None) /\
  (fst (exec (BreakEnd now) e) = Some NotFound <-> today = None) /\
  (forall op x, fst (exec op e) = Some x -> snd (exec op e) = e).
Proof.
  cbv zeta. split; [|split; [|split; [|split; [|split]]]].
  - unfold exec, apply_op, checkout.
    destruct (find_today (day_of now) (attendance e)) as [a|] eqn:Hf.
    + destruct (loginTime a) eqn:Hl; [destruct (logoutTime a)|]; simpl;
        split; intros H; try reflexivity; try discriminate;
        try (specialize (H a eq_refl); congruence);
        intros b Hb; inversion Hb; subst; auto.
    + simpl. split; intros; [discriminate | reflexivity].
  - unfold exec, apply_op, checkout.
    destruct (find_today (day_of now) (attendance e)) as [a|] eqn:Hf.
    + destruct (loginTime a) eqn:Hl; [destruct (logoutTime a) eqn:Ho|]; simpl;
        split; intros H; try reflexivity; try discriminate.
      * exists a. repeat split; congruence.
      * destruct H as (b & Hb & H1 & H2). inversion Hb; subst. congruence.
      * destruct H as (b & Hb & H1 & H2). inversion Hb; subst. congruence.
    + simpl. split; intros H; [discriminate|]. destruct H as (b & Hb & _). discriminate.
  - unfold exec, apply_op, break_start.
    destruct (valid_break_type ty) eqn:Hv; simpl.
    + destruct (find_today (day_of now) (attendance e)) as [a|] eqn:Hf.
      * destruct (loginTime a) eqn:Hl; [destruct (logoutTime a) eqn:Ho;
          [|destruct (find_open (breaks a)) eqn:Hb]|]; simpl;
          split; intros H; try reflexivity; try discriminate;
          try (destruct H as (_ & b & Hb' & H1 & H2 & H3); inversion Hb'; subst; congruence).
        split; [reflexivity|]. exists a. repeat split; congruence.
      * simpl. split; intros H; [discriminate|].
        destruct H as (_ & b & Hb & _). discriminate.
    + split; intros H; [discriminate|]. destruct H as [H _]. discriminate.
  - unfold exec, apply_op, break_end.
    destruct (find_today (day_of now) (attendance e)) as [a|] eqn:Hf.
    + destruct (find_open (breaks a)) eqn:Hb; simpl;
        split; intros H; try reflexivity; try discriminate.
      * destruct H as (b0 & Hb0 & H1). inversion Hb0; subst. congruence.
      * exists a. auto.
    + simpl. split; intros H; [discriminate|]. destruct H as (b & Hb & _). discriminate.
  - unfold exec, apply_op, break_end.
    destruct (find_today (day_of now) (attendance e)) as [a|] eqn:Hf.
    + destruct (find_open (breaks a)); simpl; split; intros H; discriminate.
    + simpl. split; intros; reflexivity.
  - intros op x. apply exec_error_unchanged.
Qed.

(** ** Deactivated employees *)

Lemma close_first_open_changes now bs :
  find_open bs <> None -> close_first_open now bs <> bs.
Proof.
  induction bs as [|b r IH]; simpl; [congruence|].
  destruct (b_endTime b) eqn:E.
  - intros Ho Heq. inversion Heq. apply IH; auto.
  - intros _ Heq. injection Heq as Hb.
    assert (Hx : b_endTime (close_break now b) = b_endTime b) by (rewrite Hb; reflexivity).
    simpl in Hx. congruence.
Qed.

Lemma found_changes d l l' x y :
  find_today d l = Some x -> find_today d l' = Some y -> x <> y -> l' <> l.
Proof. intros Hx Hy Hne ->. congruence. Qed.

(** Claim C10: only check-in looks at [isActive].  Check-out,
    break-start and break-end answer the same whatever [isActive] is and
    never answer [InactiveEmployee]; for a deactivated employee checked
    in and not checked out today, check-out succeeds and records the
    logout, break-start (valid type, no break open) succeeds and appends
    the break, and break-end (a break open) succeeds and closes it,
    while check-in is refused with [InactiveEmployee]. *)
Theorem inactive_employee_not_blocked e now loc ty a lt :
  isActive e = false ->
  find_today (day_of now) (attendance e) = Some a ->
  loginTime a = Some lt -> logoutTime a = None ->
  (forall e0 now0 loc0 ty0 b,
     checkout now0 loc0 (set_active b e0) = res_map (set_active b) (checkout now0 loc0 e0) /\
     break_start now0 ty0 (set_active b e0) = res_map (set_active b) (break_start now0 ty0 e0) /\
     break_end now0 (set_active b e0) = res_map (set_active b) (break_end now0 e0) /\
     checkout now0 loc0 e0 <> Err InactiveEmployee /\
     break_start now0 ty0 e0 <> Err InactiveEmployee /\
     break_end now0 e0 <> Err InactiveEmployee) /\
  (forall wl, checkin now loc wl e = Err InactiveEmployee) /\
  (exists e', checkout now loc e = Ok e' /\ attendance e' <> attendance e /\
     exists a', find_today (day_of now) (attendance e') = Some a' /\
                logoutTime a' = Some now) /\
  (valid_break_type ty = true -> find_open (breaks a) = None ->
     exists e', break_start now ty e = Ok e' /\ attendance e' <> attendance e /\
       exists a', find_today (day_of now) (attendance e') = Some a' /\
                  breaks a' = breaks a ++ [mkBreak now None None ty]) /\
  (find_open (breaks a) <> None ->
     exists e', break_end now e = Ok e' /\ attendance e' <> attendance e /\
       exists a', find_today (day_of now) (attendance e') = Some a' /\
                  breaks a' = close_first_open now (breaks a)).
Proof.
  intros Hact Hf Hl Ho.
  assert (Hd : att_date a = day_of now) by exact (find_today_date _ _ _ Hf).
  split; [|split; [|split; [|split]]].
  - intros e0 now0 loc0 ty0 b. repeat split.
    + unfold checkout. simpl.
      destruct (find_today (day_of now0) (attendance e0)) as [x|]; [|reflexivity].
      destruct (loginTime x); [destruct (logoutTime x)|]; reflexivity.
    + unfold break_start. simpl. destruct (negb (valid_break_type ty0)); [reflexivity|].
      destruct (find_today (day_of now0) (attendance e0)) as [x|]; [|reflexivity].
      destruct (loginTime x), (logoutTime x), (find_open (breaks x)); reflexivity.
    + unfold break_end. simpl.
      destruct (find_today (day_of now0) (attendance e0)) as [x|]; [|reflexivity].
      destruct (find_open (breaks x)); reflexivity.
    + unfold checkout.
      destruct (find_today (day_of now0) (attendance e0)) as [x|]; [|discriminate].
      destruct (loginTime x); [destruct (logoutTime x)|]; discriminate.
    + unfold break_start. destruct (negb (valid_break_type ty0)); [discriminate|].
      destruct (find_today (day_of now0) (attendance e0)) as [x|]; [|discriminate].
      destruct (loginTime x), (logoutTime x), (find_open (breaks x)); discriminate.
    + unfold break_end.
      destruct (find_today (day_of now0) (attendance e0)) as [x|]; [|discriminate].
      destruct (find_open (breaks x)); discriminate.
  - intros wl. unfold checkin. rewrite Hact. reflexivity.
  - eexists. split.
    + unfold checkout. rewrite Hf, Hl, Ho. reflexivity.
    + simpl. destruct (checkout_record_fields now loc (shiftTiming e) lt a)
        as (Hd' & _ & Hout & _).
      assert (Hf' : find_today (day_of now) (replace_today (day_of now)
                      (checkout_record now loc (shiftTiming e) lt a) (attendance e)) =
                    Some (checkout_record now loc (shiftTiming e) lt a)).
      { apply (find_replace_today _ a); congruence. }
      split.
      * apply (found_changes _ _ _ _ _ Hf Hf'). intros Heq.
        rewrite <- Heq in Hout. congruence.
      * eexists; split; [exact Hf' | exact Hout].
  - intros Hv Hno. eexists. split.
    + unfold break_start. rewrite Hv. simpl. rewrite Hf, Hl, Ho, Hno. reflexivity.
    + simpl.
      assert (Hf' : find_today (day_of now) (replace_today (day_of now)
                      (set_breaks (breaks a ++ [mkBreak now None None ty]) a)
                      (attendance e)) =
                    Some (set_breaks (breaks a ++ [mkBreak now None None ty]) a)).
      { apply (find_replace_today _ a); auto. }
      split.
      * apply (found_changes _ _ _ _ _ Hf Hf'). intros Heq.
        assert (Hlen : List.length (breaks a) =
                       List.length (breaks (set_breaks (breaks a ++ [mkBreak now None None ty]) a)))
          by (rewrite <- Heq; reflexivity).
        simpl in Hlen. rewrite length_app in Hlen. simpl in Hlen. lia.
      * eexists; split; [exact Hf' | reflexivity].
  - intros Hopen. destruct (find_open (breaks a)) eqn:Hb; [|congruence].
    eexists. split.
    + unfold break_end. rewrite Hf, Hb. reflexivity.
    + simpl.
      set (a' := set_breaks_total (close_first_open now (breaks a))
                   (sum_durations (close_first_open now (breaks a))) a).
      assert (Hf' : find_today (day_of now) (replace_today (day_of now) a' (attendance e)) =
                    Some a').
      { apply (find_replace_today _ a); auto. }
      split.
      * apply (found_changes _ _ _ _ _ Hf Hf'). intros Heq.
        apply (close_first_open_changes now (breaks a)); [congruence|].
        change (breaks a' = breaks a). rewrite <- Heq. reflexivity.
      * eexists; split; [exact Hf' | reflexivity].
Qed.

(** ** Witnesses and counterexamples for the attendance claims *)

Lemma checkin_late_minutes_witness :
  checkin (t_at 9 20) None "dining" (fresh_employee true shift_default) = Ok emp_in /\
  exists a', find_today (day_of (t_at 9 20)) (attendance emp_in) = Some a' /\
    loginTime a' = Some (t_at 9 20) /\
    lateMinutes a' =
      Z.max 0 ((t_at 9 20 - set_hours (day_of (t_at 9 20)) (shift_start shift_default)) / 60000) /\
    (status a' = late <-> 15 < lateMinutes a') /\
    (status a' = present <-> lateMinutes a' <= 15) /\
    (startTime shift_default = None -> shift_start shift_default = (9, 0)).
Proof.
  assert (H : checkin (t_at 9 20) None "dining" (fresh_employee true shift_default) = Ok emp_in).
  { vm_compute. reflexivity. }
  split; [exact H|].
  exact (checkin_late_minutes (fresh_employee true shift_default) (t_at 9 20) None "dining"
           emp_in H).
Defined.

Lemma second_checkin_rejected_witness :
  let ops := [BreakStart (t_at 12 0) "lunch"; BreakEnd (t_at 12 30);
              CheckOut (t_at 17 0) None] in
  checkin (t_at 9 20) None "dining" (fresh_employee true shift_default) = Ok emp_in /\
  Forall (fun op => forall b, op <> SetActive b) ops /\
  day_of (t_at 18 0) = day_of (t_at 9 20) /\
  exec (CheckIn (t_at 18 0) None "office") (run ops emp_in) =
    (Some AlreadyCheckedIn, run ops emp_in).
Proof.
  cbv zeta.
  assert (H : checkin (t_at 9 20) None "dining" (fresh_employee true shift_default) = Ok emp_in).
  { vm_compute. reflexivity. }
  assert (Hops : Forall (fun op => forall b, op <> SetActive b)
                   [BreakStart (t_at 12 0) "lunch"; BreakEnd (t_at 12 30);
                    CheckOut (t_at 17 0) None]).
  { repeat constructor; intros b; discriminate. }
  assert (Hday : day_of (t_at 18 0) = day_of (t_at 9 20)).
  { vm_compute. reflexivity. }
  split; [exact H|]. split; [exact Hops|]. split; [exact Hday|].
  exact (second_checkin_rejected _ _ _ _ _ _ _ _ _ H Hops Hday).
Defined.

(** Claim C8 as stated fails: a second check-in on the same day before
    any check-out is refused, it does not overwrite the open record. *)
Lemma recheckin_overwrites_cex :
  checkin (t_at 10 0) None "office" emp_in = Err AlreadyCheckedIn /\
  ~ (exists e', checkin (t_at 10 0) None "office" emp_in = Ok e') /\
  logoutTime rec_in = None.
Proof.
  split; [vm_compute; reflexivity|]. split.
  - intros (e' & H). vm_compute in H. discriminate.
  - vm_compute. reflexivity.
Qed.

Lemma checkin_same_day_policy_witness :
  isActive emp_in = true /\
  find_today (day_of (t_at 10 0)) (attendance emp_in) = Some rec_in /\
  (loginTime rec_in <> None -> checkin (t_at 10 0) None "office" emp_in = Err AlreadyCheckedIn).
Proof.
  assert (Ha : isActive emp_in = true) by (vm_compute; reflexivity).
  assert (Hf : find_today (day_of (t_at 10 0)) (attendance emp_in) = Some rec_in)
    by (vm_compute; reflexivity).
  split; [exact Ha|]. split; [exact Hf|].
  exact (proj1 (checkin_same_day_policy emp_in (t_at 10 0) None "office" rec_in Ha Hf)).
Defined.

(** Claim C7 as stated fails: ending a break when none is open fails
    with [NotFound], not [NoOpenBreak], when there is no record today. *)
Lemma break_end_without_record_cex :
  fst (exec (BreakEnd (t_at 12 0)) (fresh_employee true shift_default)) = Some NotFound /\
  fst (exec (BreakEnd (t_at 12 0)) (fresh_employee true shift_default)) <> Some NoOpenBreak.
Proof. split; [reflexivity | discriminate]. Qed.

Lemma inactive_employee_not_blocked_witness :
  isActive emp_in_deactivated = false /\
  find_today (day_of (t_at 12 0)) (attendance emp_in_deactivated) = Some rec_in /\
  loginTime rec_in = Some (t_at 9 20) /\ logoutTime rec_in = None /\
  exists e', checkout (t_at 12 0) None emp_in_deactivated = Ok e' /\
    attendance e' <> attendance emp_in_deactivated /\
    exists a', find_today (day_of (t_at 12 0)) (attendance e') = Some a' /\
               logoutTime a' = Some (t_at 12 0).
Proof.
  assert (Ha : isActive emp_in_deactivated = false) by (vm_compute; reflexivity).
  assert (Hf : find_today (day_of (t_at 12 0)) (attendance emp_in_deactivated) = Some rec_in)
    by (vm_compute; reflexivity).
  assert (Hl : loginTime rec_in = Some (t_at 9 20)) by (vm_compute; reflexivity).
  assert (Ho : logoutTime rec_in = None) by (vm_compute; reflexivity).
  split; [exact Ha|]. split; [exact Hf|]. split; [exact Hl|]. split; [exact Ho|].
  exact (proj1 (proj2 (proj2 (inactive_employee_not_blocked emp_in_deactivated
           (t_at 12 0) None "lunch" rec_in (t_at 9 20) Ha Hf Hl Ho)))).
Defined.

(** ** Period aggregation *)

Lemma js_round_zero_ratio q : js_round (inject_Z 0 / q * 100) = 0.
Proof.
  unfold js_round, Qfloor, Qdiv, Qmult, Qplus. simpl.
  apply Z.div_small. lia.
Qed.

(** Claim C4 as stated fails: [averageHours] is stored rounded to two
    decimals, so three present days of 3, 3 and 4 hours give 3.33, not
    10/3. *)
Lemma average_hours_exact_cex :
  let atts := [worked_day 1 3 present true; worked_day 2 3 present true;
               worked_day 3 4 present true] in
  let g := range_stats 0 (10 * ms_per_day) atts in
  rg_presentDays g = 3 /\ sumq hours0 atts == 10 # 1 /\
  ~ (rg_averageHours g == (10 # 1) / 3)%Q.
Proof.
  vm_compute. split; [reflexivity|]. split; [reflexivity|]. discriminate.
Qed.

(** Claim C4 (as amended): over the records of a date window, the report's
    [punctualityScore] is [round((present - late - earlyLeave)/present*100)]
    (0 without present days, never clamped, so it can be negative) and
    [attendancePercentage] is [round(present/(present+absent)*100)] (0
    with an empty denominator); the range view's [averageHours] is
    [totalHours/present] rounded to two decimals (0 without present
    days); with no present day all three are 0. *)
Theorem period_stats_formulas start end_ atts :
  let inr := filter (in_range start end_) atts in
  let P := count isPresent inr in
  let A := count (fun a => negb (isPresent a)) inr in
  let L := count is_late inr in
  let E := count is_early_leave inr in
  let T := sumq hours0 inr in
  let r := report_stats start end_ atts in
  let g := range_stats start end_ atts in
  rs_punctualityScore r =
    (if 0 <? P then js_round (inject_Z (P - L - E) / inject_Z P * 100) else 0) /\
  rs_attendancePercentage r =
    (if 0 <? P + A then js_round (inject_Z P / inject_Z (P + A) * 100) else 0) /\
  rg_averageHours g = (if 0 <? P then round2 (T / inject_Z P) else 0%Q) /\
  (P = 0 -> rs_attendancePercentage r = 0 /\ rs_punctualityScore r = 0 /\
            rg_averageHours g = 0%Q) /\
  (exists atts0, rs_punctualityScore (report_stats 0 ms_per_day atts0) < 0).
Proof.
  cbv zeta. split; [reflexivity|]. split; [reflexivity|]. split; [reflexivity|].
  split.
  - intros HP. unfold report_stats, range_stats. cbv zeta. simpl. rewrite HP. simpl.
    split; [|split; reflexivity].
    destruct (0 <? _); [apply js_round_zero_ratio | reflexivity].
  - exists [worked_day 0 8 present true; worked_day 0 8 late false;
            worked_day 0 8 early_leave false].
    vm_compute. reflexivity.
Qed.

(** ** Payslip *)

(** The payslip's allowance and deduction formulas whenever
    [baseSalary || basePay] is a non-zero number [b] (then [basicSalary]
    is [b]). *)
Lemma payslip_formulas ap sd sdeds b :
  js_or (baseSalary sd) (basePay sd) = Some b -> ~ (b == 0)%Q ->
  let p := payslip ap sd sdeds in
  transport p = 1000%Q /\ meal p = 500%Q /\ mobile p = 300%Q /\
  performance p = (if Qle_bool 95 ap then 2000 else 0)%Q /\
  basicSalary p = b /\
  pf p = Num (inject_Z (js_round (b * (12 # 100)))) /\
  esi p = Num (inject_Z (js_round (b * (175 # 10000)))) /\
  tax p = 0%Q /\ advance p = or0 sdeds /\
  grossEarnings p = (or0 (grossSalary sd) + totalAllowances p)%Q /\
  netSalary p = js_sub (Num (grossEarnings p)) (totalDeductions p).
Proof.
  intros Hb Hnz. cbv zeta. unfold payslip. rewrite Hb. simpl.
  unfold or0 at 1. simpl.
  destruct (Qeq_bool b 0) eqn:E.
  - apply Qeq_bool_iff in E. contradiction.
  - repeat split.
Qed.

(** Claim C5 fails at a zero base salary: [earnings.basicSalary] falls
    back to 0 but [pf] and [esi] are computed from
    [baseSalary || basePay] without that fallback, so they, the total
    deductions and the net salary are [NaN] instead of
    [round(0 * 0.12) = 0]. *)
Theorem payslip_zero_base_nan :
  let p := payslip 100 (mkSalaryData (Some 0%Q) None (Some 0%Q) None) None in
  basicSalary p = 0%Q /\ pf p = NaN /\ esi p = NaN /\
  totalDeductions p = NaN /\ netSalary p = NaN /\ grossEarnings p = 3800%Q.
Proof. vm_compute. repeat split. Qed.

(** ** Stable descending sort *)

Section SortDesc.
Context {A : Type} (key : A -> Q).

Definition desc (x y : A) : Prop := (key y <= key x)%Q.

Lemma insert_desc_perm x l : Permutation (insert_desc key x l) (x :: l).
Proof.
  induction l as [|y r IH]; simpl; [auto|].
  destruct (Qle_bool (key y) (key x)); [auto|].
  eapply perm_trans; [apply perm_skip, IH | apply perm_swap].
Qed.

Lemma sort_desc_perm l : Permutation (sort_desc key l) l.
Proof.
  induction l as [|x r IH]; simpl; [auto|].
  eapply perm_trans; [apply insert_desc_perm | auto].
Qed.

Lemma Qle_bool_false x y : Qle_bool x y = false -> (y <= x)%Q.
Proof.
  intros H. apply Qlt_le_weak, Qnot_le_lt. intros Hle.
  apply Qle_bool_iff in Hle. congruence.
Qed.

Lemma insert_desc_sorted x l :
  Sorted desc l -> Sorted desc (insert_desc key x l).
Proof.
  induction 1 as [|y r Hr IH Hhd]; simpl.
  - repeat constructor.
  - destruct (Qle_bool (key y) (key x)) eqn:E.
    + constructor; [constructor; auto|]. constructor.
      unfold desc. apply Qle_bool_iff, E.
    + constructor; [exact IH|].
      destruct r as [|z r']; simpl.
      * constructor. unfold desc. apply Qle_bool_false, E.
      * inversion Hhd; subst.
        destruct (Qle_bool (key z) (key x)); constructor; auto.
        unfold desc. apply Qle_bool_false, E.
Qed.

Lemma sort_desc_sorted l : Sorted desc (sort_desc key l).
Proof.
  induction l as [|x r IH]; simpl; [constructor|].
  apply insert_desc_sorted, IH.
Qed.

Lemma StronglySorted_app_split (l1 l2 : list A) :
  StronglySorted desc (l1 ++ l2) ->
  forall x y, In x l1 -> In y l2 -> desc x y.
Proof.
  induction l1 as [|z r IH]; simpl; intros Hs x y Hx Hy; [contradiction|].
  inversion Hs as [|? ? Hs' Hall]; subst.
  destruct Hx as [->|Hx].
  - rewrite Forall_forall in Hall. apply Hall, in_or_app. auto.
  - apply IH; auto.
Qed.

Lemma StronglySorted_prefix (l1 l2 : list A) :
  StronglySorted desc (l1 ++ l2) -> StronglySorted desc l1.
Proof.
  induction l1 as [|z r IH]; simpl; intros Hs; [constructor|].
  inversion Hs as [|? ? Hs' Hall]; subst. constructor; [auto|].
  rewrite Forall_forall in *. intros w Hw. apply Hall, in_or_app. auto.
Qed.

(** The first [n] elements of the sort: in descending key order, as
    many as the input allows, and none of the others has a larger key. *)
Lemma sort_desc_top n l :
  let top := firstn n (sort_desc key l) in
  Sorted desc top /\
  List.length top = Nat.min n (List.length l) /\
  exists rest, Permutation l (top ++ rest) /\
    forall x y, In x top -> In y rest -> (key y <= key x)%Q.
Proof.
  cbv zeta.
  pose proof (sort_desc_sorted l) as Hs.
  pose proof (sort_desc_perm l) as Hp.
  assert (Htr : Relations_1.Transitive desc).
  { intros x y z Hxy Hyz. unfold desc in *. eapply Qle_trans; eauto. }
  pose proof (Sorted_StronglySorted Htr Hs) as Hss.
  rewrite <- (firstn_skipn n (sort_desc key l)) in Hss, Hs.
  split; [|split].
  - apply StronglySorted_Sorted.
    exact (StronglySorted_prefix _ _ Hss).
  - rewrite length_firstn, (Permutation_length Hp). reflexivity.
  - exists (skipn n (sort_desc key l)). split.
    + rewrite firstn_skipn. symmetry. exact Hp.
    + intros x y Hx Hy. exact (StronglySorted_app_split _ _ Hss x y Hx Hy).
Qed.
End SortDesc.

(** ** Top performers *)

(** Claim C9 as stated fails: the dashboard list is ranked by
    attendance, so an employee with attendance 90 and punctuality 0
    (score 63) comes before one with 80 and 100 (score 86). *)
Lemma dashboard_not_by_score_cex :
  let l := [mkEmpMetric 1 90 0 0; mkEmpMetric 2 80 100 0] in
  map snd (dashboard_top l) = [6300 # 100; 8600 # 100] /\
  ~ Sorted (desc snd) (dashboard_top l).
Proof.
  cbv zeta. split; [vm_compute; reflexivity|].
  intros H. apply Sorted_inv in H. destruct H as [_ Hd].
  apply HdRel_inv in Hd. unfold desc in Hd. vm_compute in Hd. apply Hd. reflexivity.
Qed.

Lemma map_fst_pair {B C : Type} (f : B -> C) (l : list B) :
  map fst (map (fun m => (m, f m)) l) = l.
Proof. rewrite map_map. simpl. apply map_id. Qed.

(** Claim C9 (as amended): the dashboard list is the first 5 employees
    of a stable sort by [attendancePercentage], descending, each carrying
    [round2(0.7*attendance + 0.3*punctuality)]; the report list is the
    first 10 of a stable sort by
    [round2(0.4*attendance + 0.3*punctuality + 0.3*min(totalHours/160,1)*100)],
    descending; each list is as long as the input allows and no
    employee left out ranks above a listed one under its sort key. *)
Theorem top_performer_rankings l :
  let dash := dashboard_top l in
  let rep := report_top l in
  Sorted (desc att_key) (map fst dash) /\
  List.length dash = Nat.min 5 (List.length l) /\
  (exists rest, Permutation l (map fst dash ++ rest) /\
     forall x y, In x (map fst dash) -> In y rest -> (att_key y <= att_key x)%Q) /\
  (forall m s, In (m, s) dash -> s = dashboard_score m) /\
  Sorted (desc snd) rep /\
  List.length rep = Nat.min 10 (List.length l) /\
  (exists rest, Permutation l (map fst rep ++ rest) /\
     forall x y, In x rep -> In y rest -> (report_score y <= snd x)%Q) /\
  (forall m s, In (m, s) rep -> s = report_score m).
Proof.
  cbv zeta. unfold dashboard_top, report_top.
  rewrite map_fst_pair.
  destruct (sort_desc_top att_key 5 l) as (Hs1 & Hl1 & rest1 & Hp1 & Ht1).
  set (lp := map (fun m => (m, report_score m)) l).
  assert (Hlp : forall p, In p lp -> snd p = report_score (fst p)).
  { intros p Hp. unfold lp in Hp. apply in_map_iff in Hp.
    destruct Hp as (m & <- & _). reflexivity. }
  destruct (sort_desc_top snd 10 lp) as (Hs2 & Hl2 & rest2 & Hp2 & Ht2).
  assert (Hlen : List.length lp = List.length l) by apply length_map.
  split; [exact Hs1|]. split; [rewrite length_map; exact Hl1|].
  split; [exists rest1; auto|].
  split.
  { intros m s Hin. apply in_map_iff in Hin. destruct Hin as (x & Hx & _).
    inversion Hx; subst. reflexivity. }
  split; [exact Hs2|]. split; [rewrite Hl2, Hlen; reflexivity|].
  split.
  - exists (map fst rest2). split.
    + rewrite <- map_app. rewrite <- (map_fst_pair report_score l).
      apply Permutation_map. exact Hp2.
    + intros x y Hx Hy. apply in_map_iff in Hy. destruct Hy as (q & <- & Hq).
      rewrite <- (Hlp q).
      * apply Ht2; auto.
      * apply (Permutation_in _ (Permutation_sym Hp2)). apply in_or_app. auto.
  - intros m s Hin.
    apply (Hlp (m, s)).
    apply (Permutation_in _ (Permutation_sym Hp2)). apply in_or_app. auto.
Qed.

(** ** Second record invariant *)

Lemma open_count_none bs : find_open bs = None <-> open_count bs = 0%nat.
Proof.
  induction bs as [|b r IH]; simpl; [split; auto|].
  destruct (b_endTime b); [exact IH | split; discriminate].
Qed.

Lemma open_count_close now bs :
  open_count (close_first_open now bs) = (open_count bs - 1)%nat.
Proof.
  induction bs as [|b r IH]; simpl; [reflexivity|].
  destruct (b_endTime b) eqn:E; simpl.
  - rewrite E. exact IH.
  - lia.
Qed.

Lemma open_count_app_open bs b :
  b_endTime b = None -> open_count (bs ++ [b]) = S (open_count bs).
Proof.
  intros Hb. induction bs as [|x r IH]; simpl.
  - rewrite Hb. reflexivity.
  - destruct (b_endTime x); rewrite IH; reflexivity.
Qed.

Lemma force_close_fields now a :
  isPresent (force_close now a) = isPresent a /\
  status (force_close now a) = status a /\
  earlyLeaveMinutes (force_close now a) = earlyLeaveMinutes a /\
  breaks (force_close now a) = close_first_open now (breaks a).
Proof.
  unfold force_close. destruct (find_open (breaks a)) eqn:Ho; simpl; [auto|].
  rewrite close_first_open_none by exact Ho. auto.
Qed.

Lemma find_today_none_notin d l :
  find_today d l = None -> ~ In d (map att_date l).
Proof.
  induction l as [|x r IH]; simpl; [auto|].
  destruct (Z.eqb_spec (att_date x) d) as [E|E]; [discriminate|].
  intros H [H'|H']; [congruence | exact (IH H H')].
Qed.

Lemma NoDup_snoc {A : Type} (l : list A) x :
  NoDup l -> ~ In x l -> NoDup (l ++ [x]).
Proof.
  induction 1 as [|y r Hy Hr IH]; simpl; intros Hx.
  - constructor; [auto | constructor].
  - constructor.
    + intros Hin. apply in_app_or in Hin. destruct Hin as [Hin|[Hin|[]]].
      * exact (Hy Hin).
      * apply Hx. left. symmetry. exact Hin.
    + apply IH. intros Hin. apply Hx. right. exact Hin.
Qed.

Lemma map_date_replace d a' l :
  att_date a' = d -> map att_date (replace_today d a' l) = map att_date l.
Proof.
  intros Hd. induction l as [|x r IH]; simpl; [reflexivity|].
  destruct (Z.eqb_spec (att_date x) d) as [E|E]; simpl; congruence.
Qed.

Lemma checkout_record_inv2 now loc st lt a :
  rec_inv a -> rec_inv2 a -> logoutTime a = None ->
  rec_inv2 (checkout_record now loc st lt a).
Proof.
  intros (_ & Hst & _) (Hp & Hoc & _ & _ & _ & Hel & _) Hout.
  specialize (Hst Hout).
  destruct (force_close_fields now a) as (Hp1 & Hs1 & He1 & Hb1).
  assert (Hel0 : earlyLeaveMinutes a = None).
  { destruct (earlyLeaveMinutes a) eqn:E; [|reflexivity]. exfalso.
    assert (Hs : status a = early_leave) by (apply Hel; congruence).
    destruct Hst; congruence. }
  assert (Hoc1 : open_count (breaks (force_close now a)) = 0%nat).
  { rewrite Hb1, open_count_close. lia. }
  assert (Hnone : find_open (breaks (force_close now a)) = None)
    by (apply open_count_none; exact Hoc1).
  unfold checkout_record.
  set (a1 := force_close now a) in *.
  destruct (qltb _ _); [|destruct (30 <? _) eqn:E30; [|destruct (qltb _ _)]];
    unfold rec_inv2; simpl;
    (split; [rewrite Hp1; exact Hp|]);
    (split; [rewrite Hoc1; lia|]);
    (split; [intros _; exact Hnone|]);
    (split; [split; discriminate|]);
    (split; [split; discriminate|]);
    rewrite ?He1, ?Hel0, ?Hs1.
  - split; [split; [discriminate | congruence] | discriminate].
  - split; [split; [discriminate | reflexivity]|].
    intros m Hm. injection Hm as <-. apply Z.ltb_lt. exact E30.
  - split; [split; [discriminate | congruence] | discriminate].
  - split; [split; [intros E; destruct Hst; congruence | congruence] | discriminate].
Qed.

Lemma checkin_inv2 now loc wl e e' :
  emp_inv e -> emp_inv2 e -> checkin now loc wl e = Ok e' -> emp_inv2 e'.
Proof.
  intros Hinv [Hinv2 Hnd] H.
  destruct (checkin_ok _ _ _ _ _ H) as [_ [(Hf & ->) | (a & Hf & Hl & _)]].
  - unfold emp_inv2; simpl. split.
    + apply Forall_app; split; [exact Hinv2|]. constructor; [|constructor].
      set (s := if 15 <? _ then late else present).
      assert (Hs : s = present \/ s = late).
      { unfold s. destruct (15 <? _); auto. }
      unfold rec_inv2; simpl.
      split; [reflexivity|]. split; [lia|]. split; [intros H'; contradiction|].
      split; [tauto|]. split; [tauto|].
      split; [split; [intros E; destruct Hs; congruence | intros E; contradiction]|].
      discriminate.
    + rewrite map_app. simpl. apply NoDup_snoc; [exact Hnd|].
      apply find_today_none_notin, Hf.
  - exfalso. destruct (find_today_Forall _ _ _ _ Hinv Hf) as (Hl' & _). exact (Hl' Hl).
Qed.

Lemma checkout_inv2 now loc e e' :
  emp_inv e -> emp_inv2 e -> checkout now loc e = Ok e' -> emp_inv2 e'.
Proof.
  intros Hinv [Hinv2 Hnd] H.
  destruct (checkout_ok_inv _ _ _ _ H) as (a & lt & Hf & Hl & Ho & ->).
  unfold emp_inv2; simpl. split.
  - apply replace_today_Forall; [exact Hinv2|].
    apply checkout_record_inv2; auto.
    + exact (find_today_Forall _ _ _ _ Hinv Hf).
    + exact (find_today_Forall _ _ _ _ Hinv2 Hf).
  - rewrite map_date_replace; [exact Hnd|].
    destruct (checkout_record_fields now loc (shiftTiming e) lt a) as (Hd & _).
    rewrite Hd. exact (find_today_date _ _ _ Hf).
Qed.

Lemma break_start_inv2 now ty e e' :
  emp_inv2 e -> break_start now ty e = Ok e' -> emp_inv2 e'.
Proof.
  unfold break_start. intros [Hinv2 Hnd] H.
  destruct (negb (valid_break_type ty)); [discriminate|].
  destruct (find_today (day_of now) (attendance e)) as [a|] eqn:Hf; [|discriminate].
  destruct (loginTime a), (logoutTime a) eqn:Ho, (find_open (breaks a)) eqn:Hop;
    try discriminate.
  inversion H; subst. unfold emp_inv2; simpl. split.
  - apply replace_today_Forall; [exact Hinv2|].
    destruct (find_today_Forall _ _ _ _ Hinv2 Hf) as (Hp & _ & _ & Hhw & Hot & Hel & Hm).
    unfold rec_inv2, set_breaks, set_breaks_total; simpl.
    rewrite open_count_app_open by reflexivity.
    apply open_count_none in Hop. rewrite Hop.
    split; [exact Hp|]. split; [lia|]. split; [rewrite Ho; congruence|]. auto.
  - rewrite map_date_replace; [exact Hnd|]. exact (find_today_date _ _ _ Hf).
Qed.

Lemma break_end_inv2 now e e' :
  emp_inv2 e -> break_end now e = Ok e' -> emp_inv2 e'.
Proof.
  unfold break_end. intros [Hinv2 Hnd] H.
  destruct (find_today (day_of now) (attendance e)) as [a|] eqn:Hf; [|discriminate].
  destruct (find_open (breaks a)) eqn:Hop; [|discriminate].
  inversion H; subst. unfold emp_inv2; simpl. split.
  - apply replace_today_Forall; [exact Hinv2|].
    destruct (find_today_Forall _ _ _ _ Hinv2 Hf) as (Hp & Hoc & _ & Hhw & Hot & Hel & Hm).
    assert (Hoc0 : open_count (close_first_open now (breaks a)) = 0%nat)
      by (rewrite open_count_close; lia).
    unfold rec_inv2; simpl.
    split; [exact Hp|]. split; [lia|].
    split; [intros _; apply open_count_none; exact Hoc0|]. auto.
  - rewrite map_date_replace; [exact Hnd|]. exact (find_today_date _ _ _ Hf).
Qed.

Lemma exec_inv2 op e : emp_inv e -> emp_inv2 e -> emp_inv2 (snd (exec op e)).
Proof.
  intros Hinv Hinv2. unfold exec.
  destruct (apply_op op e) as [e'|x] eqn:H; simpl; [|exact Hinv2].
  destruct op; simpl in H.
  - eapply checkin_inv2; eauto.
  - eapply checkout_inv2; eauto.
  - eapply break_start_inv2; eauto.
  - eapply break_end_inv2; eauto.
  - inversion H; subst; exact Hinv2.
  - inversion H; subst; exact Hinv2.
Qed.

Lemma run_inv2 ops e : emp_inv e -> emp_inv2 e -> emp_inv2 (run ops e).
Proof.
  revert e; induction ops as [|op r IH]; intros e H H2; simpl; auto.
  apply IH; [apply exec_inv, H | apply exec_inv2; auto].
Qed.

Lemma reachable_inv2 e : reachable e -> emp_inv2 e.
Proof.
  intros (act & st & ops & ->). apply run_inv2; [constructor|].
  split; constructor.
Qed.

Lemma reachable_rec e a :
  reachable e -> In a (attendance e) -> rec_inv a /\ rec_inv2 a.
Proof.
  intros He Ha. split.
  - pose proof (reachable_inv e He) as H. unfold emp_inv in H.
    rewrite Forall_forall in H. auto.
  - destruct (reachable_inv2 e He) as [H _]. rewrite Forall_forall in H. auto.
Qed.

Lemma NoDup_find_today a l :
  NoDup (map att_date l) -> In a l -> find_today (att_date a) l = Some a.
Proof.
  induction l as [|x r IH]; simpl; [contradiction|].
  intros Hnd Hin. inversion Hnd as [|? ? Hx Hr]; subst.
  destruct Hin as [->|Hin].
  - rewrite Z.eqb_refl. reflexivity.
  - destruct (Z.eqb_spec (att_date x) (att_date a)) as [E|E].
    + exfalso. apply Hx. rewrite E. apply in_map, Hin.
    + apply IH; auto.
Qed.

(** ** Percentages *)

Lemma js_round_ratio p t :
  0 < t -> js_round (inject_Z p / inject_Z t * 100) = (200 * p + t) / (2 * t).
Proof.
  intros Ht. destruct t as [|tp|tp]; try lia. unfold js_round, Qfloor.
  cbn [Qnum Qden Qplus Qmult Qinv Qdiv inject_Z].
  rewrite ?Pos.mul_1_r, ?Pos2Z.inj_mul. f_equal; lia.
Qed.

Lemma js_round_pct p t :
  0 < t -> 0 <= p <= t -> 0 <= js_round (inject_Z p / inject_Z t * 100) <= 100.
Proof.
  intros Ht Hp. rewrite js_round_ratio by exact Ht. split.
  - apply Z.div_pos; lia.
  - apply Z.lt_succ_r. apply Z.div_lt_upper_bound; lia.
Qed.

Lemma js_round_full t : 0 < t -> js_round (inject_Z t / inject_Z t * 100) = 100.
Proof.
  intros Ht. rewrite js_round_ratio by exact Ht. symmetry.
  apply Z.div_unique with t; lia.
Qed.

(** ** Counting *)

Lemma length_filter_le {A : Type} (f : A -> bool) (l : list A) :
  (List.length (filter f l) <= List.length l)%nat.
Proof.
  induction l as [|x r IH]; simpl; [lia|]. destruct (f x); simpl; lia.
Qed.

Lemma length_filter_excl {A : Type} (f g : A -> bool) (l : list A) :
  (forall x, f x = true -> g x = false) ->
  (List.length (filter f l) + List.length (filter g l) <= List.length l)%nat.
Proof.
  intros Hx. induction l as [|x r IH]; simpl; [lia|].
  destruct (f x) eqn:Ef; [rewrite (Hx x Ef)|destruct (g x)]; simpl; lia.
Qed.

Lemma length_filter_all {A : Type} (f : A -> bool) (l : list A) :
  Forall (fun x => f x = true) l -> List.length (filter f l) = List.length l.
Proof.
  induction 1 as [|x r Hx Hr IH]; simpl; [reflexivity|]. rewrite Hx. simpl. lia.
Qed.

Lemma length_filter_none {A : Type} (f : A -> bool) (l : list A) :
  Forall (fun x => f x = false) l -> List.length (filter f l) = O.
Proof.
  induction 1 as [|x r Hx Hr IH]; simpl; [reflexivity|]. rewrite Hx. exact IH.
Qed.

Lemma existsb_open bs : existsb is_open bs = true -> find_open bs <> None.
Proof.
  induction bs as [|b r IH]; simpl; [discriminate|].
  unfold is_open. destruct (b_endTime b); simpl; [exact IH | discriminate].
Qed.

(** ** Invariants of the stored attendance *)

(** Extra X1: in every state the routes can produce, an employee has at
    most one attendance record per date, so the record that [find] returns
    for a date is the only record of that date. *)
Theorem one_record_per_day e :
  reachable e ->
  NoDup (map att_date (attendance e)) /\
  forall a, In a (attendance e) -> find_today (att_date a) (attendance e) = Some a.
Proof.
  intros He. destruct (reachable_inv2 e He) as [_ Hnd].
  split; [exact Hnd|]. intros a Ha. apply NoDup_find_today; auto.
Qed.

Lemma one_record_per_day_witness :
  NoDup (map att_date (attendance emp_out)) /\
  forall a, In a (attendance emp_out) ->
    find_today (att_date a) (attendance emp_out) = Some a.
Proof.
  apply one_record_per_day.
  exists true, shift_default,
    (morning_ops ++ [BreakEnd (t_at 12 30); CheckOut (t_at 17 0) None]).
  reflexivity.
Defined.

(** Extra X2: in every reachable state, each attendance record has at most
    one open break (no end time), and none once its check-out is
    recorded. *)
Theorem at_most_one_open_break e a :
  reachable e -> In a (attendance e) ->
  (open_count (breaks a) <= 1)%nat /\
  (logoutTime a <> None -> find_open (breaks a) = None).
Proof.
  intros He Ha. destruct (reachable_rec e a He Ha) as [_ (_ & Hoc & Hout & _)].
  auto.
Qed.

Lemma at_most_one_open_break_witness :
  (open_count (breaks rec_in) <= 1)%nat /\
  (logoutTime rec_in <> None -> find_open (breaks rec_in) = None).
Proof.
  apply (at_most_one_open_break emp_in rec_in).
  - exists true, shift_default, [CheckIn (t_at 9 20) None "dining"]. reflexivity.
  - vm_compute. left. reflexivity.
Defined.

(** Extra X3: in every reachable state, a record carries [hoursWorked] and
    [overtimeHours] exactly when it carries a [logoutTime]. *)
Theorem hours_only_after_checkout e a :
  reachable e -> In a (attendance e) ->
  (logoutTime a = None <-> hoursWorked a = None) /\
  (logoutTime a = None <-> overtimeHours a = None).
Proof.
  intros He Ha. destruct (reachable_rec e a He Ha) as [_ (_ & _ & _ & Hh & Ho & _)].
  auto.
Qed.

Lemma hours_only_after_checkout_witness :
  (logoutTime rec_in = None <-> hoursWorked rec_in = None) /\
  (logoutTime rec_in = None <-> overtimeHours rec_in = None).
Proof.
  apply (hours_only_after_checkout emp_in rec_in).
  - exists true, shift_default, [CheckIn (t_at 9 20) None "dining"]. reflexivity.
  - vm_compute. left. reflexivity.
Defined.

(** Extra X4: in every reachable state, a record has the status
    [early-leave] exactly when it carries [earlyLeaveMinutes], and that
    value is then above 30. *)
Theorem early_leave_recorded e a :
  reachable e -> In a (attendance e) ->
  (status a = early_leave <-> exists m, earlyLeaveMinutes a = Some m /\ 30 < m).
Proof.
  intros He Ha. destruct (reachable_rec e a He Ha) as [_ (_ & _ & _ & _ & _ & Hel & Hm)].
  split.
  - intros Hs. destruct (earlyLeaveMinutes a) as [m|] eqn:E.
    + exists m. split; [reflexivity | apply Hm; reflexivity].
    + exfalso. apply Hel in Hs. exact (Hs eq_refl).
  - intros (m & Hm' & _). apply Hel. congruence.
Qed.

Lemma early_leave_recorded_witness :
  status rec_in = early_leave <->
  exists m, earlyLeaveMinutes rec_in = Some m /\ 30 < m.
Proof.
  apply (early_leave_recorded emp_in rec_in).
  - exists true, shift_default, [CheckIn (t_at 9 20) None "dining"]. reflexivity.
  - vm_compute. left. reflexivity.
Defined.

(** Extra X5: the routes never store an absent record, so on reachable
    data the comprehensive report counts no absent day, gives an
    attendance percentage of 100 whenever the period holds a record (0
    otherwise), and a punctuality score between 0 and 100. *)
Theorem report_stats_reachable e start end_ :
  reachable e ->
  let r := report_stats start end_ (attendance e) in
  rs_absentDays r = 0 /\
  rs_attendancePercentage r = (if 0 <? rs_presentDays r then 100 else 0) /\
  0 <= rs_punctualityScore r <= 100.
Proof.
  intros He. destruct (reachable_inv2 e He) as [Hinv2 _].
  cbv zeta. unfold report_stats. cbv zeta.
  cbn [rs_absentDays rs_attendancePercentage rs_punctualityScore rs_presentDays].
  set (inr := filter (in_range start end_) (attendance e)).
  assert (Hp : Forall (fun a => isPresent a = true) inr).
  { apply Forall_forall. intros a Ha. apply filter_In in Ha.
    rewrite Forall_forall in Hinv2. apply (Hinv2 a), Ha. }
  assert (HA : count (fun a => negb (isPresent a)) inr = 0).
  { unfold count. rewrite length_filter_none; [reflexivity|].
    eapply Forall_impl; [|exact Hp]. intros a Ha; simpl; rewrite Ha; reflexivity. }
  assert (HP : count isPresent inr = Z.of_nat (List.length inr)).
  { unfold count. rewrite length_filter_all by exact Hp. reflexivity. }
  assert (HLE : count is_late inr + count is_early_leave inr <= Z.of_nat (List.length inr)).
  { unfold count. rewrite <- Nat2Z.inj_add. apply Nat2Z.inj_le.
    apply length_filter_excl. unfold is_late, is_early_leave.
    intros a. destruct (status a); simpl; congruence. }
  assert (H0 : 0 <= count is_late inr /\ 0 <= count is_early_leave inr)
    by (unfold count; lia).
  rewrite HA, HP, Z.add_0_r in *.
  split; [reflexivity|].
  destruct (Z.ltb_spec 0 (Z.of_nat (List.length inr))) as [Hlt|Hge].
  - split; [apply js_round_full, Hlt|]. apply js_round_pct; lia.
  - split; [reflexivity | lia].
Qed.

Lemma report_stats_reachable_witness :
  let r := report_stats (day0 * ms_per_day) ((day0 + 1) * ms_per_day) (attendance emp_out) in
  rs_absentDays r = 0 /\
  rs_attendancePercentage r = (if 0 <? rs_presentDays r then 100 else 0) /\
  0 <= rs_punctualityScore r <= 100.
Proof.
  apply report_stats_reachable.
  exists true, shift_default,
    (morning_ops ++ [BreakEnd (t_at 12 30); CheckOut (t_at 17 0) None]).
  reflexivity.
Defined.

(** ** Today's attendance summary *)

(** Extra X6: on reachable data, an employee that today's summary shows
    on break is present, has checked in and has not checked out. *)
Theorem on_break_is_checked_in now m :
  reachable (sm_emp m) -> te_onBreak (today_entry now m) = true ->
  te_isPresent (today_entry now m) = true /\
  te_loginTime (today_entry now m) <> None /\
  te_logoutTime (today_entry now m) = None.
Proof.
  intros He Hb. unfold today_entry in *.
  destruct (find_today (day_of now) (attendance (sm_emp m))) as [a|] eqn:Hf;
    simpl in *; [|discriminate].
  destruct (reachable_rec _ a He (find_today_In _ _ _ Hf))
    as [(Hl & _) (Hp & _ & Hout & _)].
  split; [exact Hp|]. split; [exact Hl|].
  destruct (logoutTime a); [|reflexivity].
  exfalso. apply (existsb_open _ Hb), Hout. discriminate.
Qed.

Lemma on_break_is_checked_in_witness :
  te_isPresent (today_entry (t_at 12 10) (mkStaff "kitchen" "cook" emp_on_break)) = true /\
  te_loginTime (today_entry (t_at 12 10) (mkStaff "kitchen" "cook" emp_on_break)) <> None /\
  te_logoutTime (today_entry (t_at 12 10) (mkStaff "kitchen" "cook" emp_on_break)) = None.
Proof.
  apply on_break_is_checked_in.
  - exists true, shift_default, morning_ops. reflexivity.
  - vm_compute. reflexivity.
Defined.

(** Extra X7: the summary of today's attendance splits the employees into
    present and absent ones, counts at most all of them as late or on
    break, and reports an attendance percentage between 0 and 100. *)
Theorem today_summary_bounds entries :
  let s := today_summary entries in
  ts_present s + ts_absent s = ts_total s /\
  0 <= ts_present s /\ 0 <= ts_absent s /\
  ts_late s <= ts_total s /\ ts_onBreak s <= ts_total s /\
  0 <= ts_attendancePercentage s <= 100.
Proof.
  cbv zeta. unfold today_summary, countl.
  cbn [ts_present ts_absent ts_total ts_late ts_onBreak ts_attendancePercentage].
  pose proof (length_filter_le te_isPresent entries).
  pose proof (length_filter_le (fun e => Status_eqb (te_status e) late) entries).
  pose proof (length_filter_le te_onBreak entries).
  split; [lia|]. split; [lia|]. split; [lia|]. split; [lia|]. split; [lia|].
  destruct (Z.ltb_spec 0 (Z.of_nat (List.length entries))); [|lia].
  apply js_round_pct; lia.
Qed.






Lemma Permutation_filter_l {A : Type} (f : A -> bool) (l l' : list A) :
  Permutation l l' -> Permutation (filter f l) (filter f l').
Proof.
  induction 1 as [|x l l' _ IH|x y l|l l' l'' _ IH1 _ IH2]; simpl.
  - constructor.
  - destruct (f x); auto.
  - destruct (f x), (f y); auto. apply perm_swap.
  - eapply perm_trans; eauto.
Qed.

Lemma StronglySorted_filter {A : Type} (R : A -> A -> Prop) (f : A -> bool) l :
  StronglySorted R l -> StronglySorted R (filter f l).
Proof.
  induction 1 as [|x r Hr IH Hall]; simpl; [constructor|].
  destruct (f x); [|exact IH]. constructor; [exact IH|].
  rewrite Forall_forall in *. intros y Hy. apply filter_In in Hy. apply Hall, Hy.
Qed.

Lemma Sorted_impl_l {A : Type} (R R' : A -> A -> Prop) l :
  (forall x y, R x y -> R' x y) -> Sorted R l -> Sorted R' l.
Proof.
  intros Himp. induction 1 as [|x r Hr IH Hhd]; constructor; [exact IH|].
  destruct Hhd; constructor. apply Himp. assumption.
Qed.

Lemma sorted_filter_desc {A : Type} (key : A -> Q) (f : A -> bool) l :
  StronglySorted (desc key) (filter f (sort_desc key l)).
Proof.
  apply StronglySorted_filter, Sorted_StronglySorted; [|apply sort_desc_sorted].
  intros x y z Hxy Hyz. unfold desc in *. eapply Qle_trans; eauto.
Qed.


(** ** Bulk check-in *)

Lemma bulk_checkin_one_spec now wl loc e :
  let d := day_of now in
  (has_login d (attendance e) /\ bulk_checkin_one now wl loc e = Err AlreadyCheckedIn) \/
  (~ has_login d (attendance e) /\
   exists e', bulk_checkin_one now wl loc e = Ok e' /\ has_login d (attendance e') /\
     lastLogin e' = Some now).
Proof.
  cbv zeta. unfold bulk_checkin_one, has_login.
  destruct (find_today (day_of now) (attendance e)) as [a|] eqn:Hf.
  - destruct (loginTime a) eqn:Hl.
    + left. split; [exists a; split; [reflexivity | congruence] | reflexivity].
    + right. split.
      * intros (a' & Ha' & Hl'). injection Ha' as <-. congruence.
      * eexists. split; [reflexivity|]. simpl. split; [|reflexivity].
        eexists. split.
        -- apply (find_replace_today _ a); [exact Hf | reflexivity].
        -- simpl. discriminate.
  - right. split.
    + intros (a' & Ha' & _). discriminate.
    + eexists. split; [reflexivity|]. simpl. split; [|reflexivity].
      eexists. split.
      * rewrite (find_today_app_none _ _ _ Hf). simpl. rewrite Z.eqb_refl. reflexivity.
      * simpl. discriminate.
Qed.

(** Extra X9: for any active employee the routes can produce, the bulk
    check-in does exactly what the single check-in does with the bulk
    location; the only difference of the two loop bodies (a missing
    location keeps an old check-in location) needs a record without
    login, which never exists. *)
Theorem bulk_checkin_as_single e now wl loc :
  reachable e -> isActive e = true ->
  bulk_checkin_one now wl loc e = checkin now (option_map bulk_geo loc) wl e.
Proof.
  intros He Hact. unfold bulk_checkin_one, checkin. rewrite Hact. simpl.
  destruct (find_today (day_of now) (attendance e)) as [a|] eqn:Hf.
  - destruct (loginTime a) eqn:Hl; [reflexivity|].
    exfalso. pose proof (reachable_inv e He) as H. unfold emp_inv in H.
    destruct (find_today_Forall _ _ _ _ H Hf) as (Hl' & _). exact (Hl' Hl).
  - destruct loc; reflexivity.
Qed.

Lemma bulk_checkin_as_single_witness :
  bulk_checkin_one (t_at 9 40) "dining" (Some (mkBulkLocation 0 0 "")) emp_out =
  checkin (t_at 9 40) (option_map bulk_geo (Some (mkBulkLocation 0 0 ""))) "dining" emp_out.
Proof.
  apply bulk_checkin_as_single.
  - exists true, shift_default,
      (morning_ops ++ [BreakEnd (t_at 12 30); CheckOut (t_at 17 0) None]).
    reflexivity.
  - vm_compute. reflexivity.
Defined.

(** Extra X10: a bulk check-in with no employee id or more than 50 is
    rejected; otherwise every active matched employee gets one outcome:
    the failure [Already checked in today] exactly when it already has a
    login today (its data unchanged), else a success that records today's
    login. *)
Theorem bulk_checkin_outcomes now wl loc ids matched :
  ((ids = [] \/ (50 < List.length ids)%nat) ->
     bulk_checkin now wl loc ids matched = Err InvalidInput) /\
  forall r, bulk_checkin now wl loc ids matched = Ok r ->
    (1 <= List.length ids <= 50)%nat /\
    br_total r = Z.of_nat (List.length ids) /\
    Forall2 (fun e0 o =>
      (has_login (day_of now) (attendance e0) /\ o = (Some AlreadyCheckedIn, e0)) \/
      (~ has_login (day_of now) (attendance e0) /\ fst o = None /\
       bulk_checkin_one now wl loc e0 = Ok (snd o) /\
       has_login (day_of now) (attendance (snd o))))
      (filter isActive matched) (br_outcomes r).
Proof.
  unfold bulk_checkin. split.
  - intros [->|H]; [reflexivity|].
    destruct (Nat.eqb_spec (List.length ids) 0); [reflexivity|].
    apply Nat.ltb_lt in H. rewrite H. reflexivity.
  - intros r Hr.
    destruct (Nat.eqb_spec (List.length ids) 0); [discriminate|].
    destruct (Nat.ltb_spec 50 (List.length ids)); [discriminate|].
    injection Hr as <-. simpl. split; [lia|]. split; [reflexivity|].
    induction (filter isActive matched) as [|x rest IH]; simpl; constructor; [|exact IH].
    destruct (bulk_checkin_one_spec now wl loc x) as [(Hl & ->)|(Hl & e' & -> & He' & _)].
    + left. auto.
    + right. simpl. auto.
Qed.

Lemma outcome_counts (os : list (option Error * Employee)) :
  countl (fun o => match fst o with None => true | Some _ => false end) os
  + countl (fun o => match fst o with None => false | Some _ => true end) os
  = Z.of_nat (List.length os).
Proof.
  unfold countl. induction os as [|[[x|] e] r IH]; [reflexivity| |];
    cbn -[Z.of_nat]; rewrite ?Nat2Z.inj_succ; lia.
Qed.

(** Extra X11: in a bulk check-in report, [successful + failed] is the
    number of active employees matched, [total] is the number of ids
    sent, and the success rate lies between 0 and 100 when no more
    employees than ids were matched. *)
Theorem bulk_checkin_summary now wl loc ids matched r :
  bulk_checkin now wl loc ids matched = Ok r ->
  br_successful r + br_failed r = Z.of_nat (List.length (filter isActive matched)) /\
  br_total r = Z.of_nat (List.length ids) /\
  ((List.length (filter isActive matched) <= List.length ids)%nat ->
   0 <= br_successRate r <= 100).
Proof.
  unfold bulk_checkin. intros Hr.
  destruct (Nat.eqb_spec (List.length ids) 0); [discriminate|].
  destruct (Nat.ltb_spec 50 (List.length ids)); [discriminate|].
  injection Hr as <-. simpl.
  set (os := map _ (filter isActive matched)).
  assert (Hlen : List.length os = List.length (filter isActive matched))
    by apply length_map.
  pose proof (outcome_counts os) as Hc.
  split; [rewrite Hc, Hlen; reflexivity|]. split; [reflexivity|].
  intros Hle. apply js_round_pct; [lia|].
  unfold countl in *. lia.
Qed.

Lemma bulk_checkin_summary_witness :
  exists r, bulk_checkin (t_at 9 40) "dining" None [1; 2] [emp_out; emp_in] = Ok r /\
  br_successful r + br_failed r = Z.of_nat (List.length (filter isActive [emp_out; emp_in])) /\
  br_total r = Z.of_nat (List.length [1; 2]) /\
  ((List.length (filter isActive [emp_out; emp_in]) <= List.length [1; 2])%nat ->
   0 <= br_successRate r <= 100).
Proof.
  eexists. split; [reflexivity|].
  apply (bulk_checkin_summary (t_at 9 40) "dining" None [1; 2] [emp_out; emp_in]).
  reflexivity.
Defined.

(** ** Salary summary *)

(** Extra X12: the salary summary reports for every employee the same
    basic salary, allowances, deductions and net salary as that
    employee's payslip, and its gross salary plus allowances is the
    payslip's gross earnings. *)
Theorem salary_summary_matches_payslip dept ap sd sdeds :
  let r := salary_row dept ap sd sdeds in
  let p := payslip ap sd sdeds in
  sr_basicSalary r = basicSalary p /\
  sr_totalAllowances r = totalAllowances p /\
  sr_totalDeductions r = totalDeductions p /\
  sr_netSalary r = netSalary p /\
  (sr_grossSalary r + sr_totalAllowances r)%Q = grossEarnings p.
Proof.
  cbv zeta. repeat split.
Qed.

Lemma payroll_from_nan rows :
  fold_left (fun t r => js_add t (sr_netSalary r)) rows NaN = NaN.
Proof. induction rows as [|x r IH]; simpl; auto. Qed.

Lemma payroll_nan_acc rows acc :
  Exists (fun r => sr_netSalary r = NaN) rows ->
  fold_left (fun t r => js_add t (sr_netSalary r)) rows acc = NaN.
Proof.
  intros H. revert acc. induction H as [x r Hx|x r _ IH]; intros acc; simpl.
  - rewrite Hx. destruct acc; apply payroll_from_nan.
  - apply IH.
Qed.

(** Extra X13: the salary summary's [averageSalary] is [NaN] when no
    employee matches, and one employee whose net salary is [NaN] makes
    [totalPayroll] and [averageSalary] [NaN]. *)
Theorem payroll_nan rows :
  average_salary [] = NaN /\
  (Exists (fun r => sr_netSalary r = NaN) rows ->
   js_round_num (total_payroll rows) = NaN /\ average_salary rows = NaN).
Proof.
  split; [reflexivity|]. intros H.
  unfold average_salary, total_payroll. rewrite (payroll_nan_acc rows (Num 0) H).
  split; reflexivity.
Qed.

(** ** Attendance issues of the report *)

Lemma issue_flag_issues r : issue_flag r = true -> issues_of r <> [].
Proof.
  unfold issue_flag, issues_of.
  destruct (rs_attendancePercentage r <? 80); [discriminate|].
  destruct (5 <? rs_lateCount r); [discriminate|]. simpl. discriminate.
Qed.

(** Extra X14: the report's attendance issues are the employees with
    attendance below 80% or more than 5 late arrivals (an employee with
    only early leaves is never listed), each with a non-empty issue list,
    in descending performance-score order because the top-performer sort
    reorders [employeeDetails] in place. *)
Theorem attendance_issues_spec details :
  let ai := attendance_issues details in
  Permutation (map fst ai) (filter issue_flag details) /\
  Sorted (desc rs_performanceScore) (map fst ai) /\
  forall r is, In (r, is) ai ->
    is = issues_of r /\ is <> [] /\
    (rs_attendancePercentage r < 80 \/ 5 < rs_lateCount r).
Proof.
  cbv zeta. unfold attendance_issues. rewrite map_fst_pair.
  split; [apply Permutation_filter_l, sort_desc_perm|].
  split; [apply StronglySorted_Sorted, sorted_filter_desc|].
  intros r is Hin. apply in_map_iff in Hin. destruct Hin as (r' & Hr & Hin).
  injection Hr as -> <-. apply filter_In in Hin. destruct Hin as [_ Hf].
  split; [reflexivity|]. split; [apply issue_flag_issues, Hf|].
  unfold issue_flag in Hf. apply orb_true_iff in Hf.
  destruct Hf as [Hf|Hf]; [left; apply Z.ltb_lt, Hf | right; apply Z.ltb_lt, Hf].
Qed.

(** ** Recent attendance *)

(** Extra X15: the recent attendance of [GET /:id] holds at most 30
    records, all dated within the last 30 days, newest first; it keeps as
    many of those records as allowed and leaves out none newer than one
    it shows. *)
Theorem recent_attendance_spec now atts :
  let inw := filter (fun a => now - 30 * ms_per_day <=? att_date a * ms_per_day) atts in
  let ra := recent_attendance now atts in
  List.length ra = Nat.min 30 (List.length inw) /\
  Forall (fun a => now - 30 * ms_per_day <= att_date a * ms_per_day) ra /\
  Sorted (fun x y => att_date y <= att_date x) ra /\
  exists rest, Permutation inw (ra ++ rest) /\
    forall x y, In x ra -> In y rest -> att_date y <= att_date x.
Proof.
  cbv zeta. unfold recent_attendance. cbv zeta.
  set (key := fun a => inject_Z (att_date a * ms_per_day)).
  set (inw := filter _ atts).
  destruct (sort_desc_top key 30 inw) as (Hs & Hl & rest & Hp & Ht).
  assert (Hk : forall x y, (key y <= key x)%Q -> att_date y <= att_date x).
  { intros x y H. unfold key in H. rewrite <- Zle_Qle in H.
    unfold ms_per_day in H. lia. }
  split; [exact Hl|]. split; [|split].
  - apply Forall_forall. intros a Ha.
    assert (Hin : In a inw).
    { apply (Permutation_in _ (Permutation_sym Hp)). apply in_or_app. auto. }
    apply filter_In in Hin. apply Z.leb_le, Hin.
  - apply (Sorted_impl_l (desc key)); [|exact Hs].
    intros x y H. apply Hk, H.
  - exists rest. split; [exact Hp|]. intros x y Hx Hy. apply Hk, Ht; auto.
Qed.

(** ** Pagination *)

(** Extra X16: for a positive page size, the list of employees reports
    [hasNext] exactly when the current page is before the last page
    [totalPages = ceil(total / limit)]. *)
Theorem pagination_has_next page limit total :
  0 < limit ->
  (hasNext (pagination page limit total) = true <->
   currentPage (pagination page limit total) < totalPages (pagination page limit total)).
Proof.
  intros Hl. destruct limit as [|lp|lp]; try lia. simpl.
  unfold Qceiling, Qfloor. cbn [Qnum Qden Qopp Qmult Qinv Qdiv inject_Z].
  rewrite Pos.mul_1_l, Z.mul_1_r, Z.ltb_lt.
  pose proof (Z.div_mod (- total) (Z.pos lp) ltac:(lia)).
  pose proof (Z.mod_pos_bound (- total) (Z.pos lp) ltac:(lia)).
  split; intros; nia.
Qed.

Lemma pagination_has_next_witness :
  (hasNext (pagination 2 20 45) = true <->
   currentPage (pagination 2 20 45) < totalPages (pagination 2 20 45)).
Proof. apply pagination_has_next. lia. Defined.

(** ** Concerned employees *)


(** ** Lateness *)

(** Extra X18: of two successful check-ins of the same employee state on
    the same day, the later one never records fewer late minutes, and it
    is [late] whenever the earlier one is. *)
Theorem later_checkin_not_less_late e t1 t2 loc1 loc2 wl1 wl2 e1 e2 :
  day_of t1 = day_of t2 -> t1 <= t2 ->
  checkin t1 loc1 wl1 e = Ok e1 -> checkin t2 loc2 wl2 e = Ok e2 ->
  exists a1 a2,
    find_today (day_of t1) (attendance e1) = Some a1 /\
    find_today (day_of t2) (attendance e2) = Some a2 /\
    lateMinutes a1 <= lateMinutes a2 /\
    (status a1 = late -> status a2 = late).
Proof.
  intros Hd Ht H1 H2.
  destruct (checkin_finds_record _ _ _ _ _ H1) as (_ & _ & a1 & Hf1 & _ & Hs1 & Hl1 & _).
  destruct (checkin_finds_record _ _ _ _ _ H2) as (_ & _ & a2 & Hf2 & _ & Hs2 & Hl2 & _).
  exists a1, a2. split; [exact Hf1|]. split; [exact Hf2|].
  rewrite Hs1, Hs2, Hl1, Hl2. rewrite <- Hd.
  set (st := set_hours (day_of t1) (shift_start (shiftTiming e))).
  assert (Hm : (t1 - st) / ms_per_minute <= (t2 - st) / ms_per_minute)
    by (apply Z.div_le_mono; unfold ms_per_minute; lia).
  split; [lia|].
  destruct (Z.ltb_spec 15 (Z.max 0 ((t1 - st) / ms_per_minute))); [|discriminate].
  intros _. destruct (Z.ltb_spec 15 (Z.max 0 ((t2 - st) / ms_per_minute))); [reflexivity|].
  lia.
Qed.

Lemma later_checkin_not_less_late_witness :
  exists e1 e2, checkin (t_at 9 20) None "dining" (fresh_employee true shift_default) = Ok e1 /\
  checkin (t_at 9 40) None "dining" (fresh_employee true shift_default) = Ok e2 /\
  exists a1 a2,
    find_today (day_of (t_at 9 20)) (attendance e1) = Some a1 /\
    find_today (day_of (t_at 9 40)) (attendance e2) = Some a2 /\
    lateMinutes a1 <= lateMinutes a2 /\
    (status a1 = late -> status a2 = late).
Proof.
  do 2 eexists. split; [reflexivity|]. split; [reflexivity|].
  apply (later_checkin_not_less_late (fresh_employee true shift_default)
           (t_at 9 20) (t_at 9 40) None None "dining" "dining").
  - vm_compute. reflexivity.
  - unfold t_at. lia.
  - reflexivity.
  - reflexivity.
Defined.

(** ** Report bounds *)

Lemma js_round_pct_le p t :
  0 < t -> p <= t -> js_round (inject_Z p / inject_Z t * 100) <= 100.
Proof.
  intros Ht Hp. rewrite js_round_ratio by exact Ht.
  apply Z.lt_succ_r. apply Z.div_lt_upper_bound; lia.
Qed.

Lemma length_filter_compl {A : Type} (f : A -> bool) (l : list A) :
  (List.length (filter f l) + List.length (filter (fun x => negb (f x)) l))%nat
  = List.length l.
Proof.
  induction l as [|x r IH]; simpl; [reflexivity|]. destruct (f x); simpl; lia.
Qed.

(** Extra X19: for any data, the comprehensive report's present and
    absent days of an employee add up to the records in the period, its
    attendance percentage lies between 0 and 100 and its punctuality
    score is at most 100. *)
Theorem report_stats_bounds start end_ atts :
  let r := report_stats start end_ atts in
  rs_presentDays r + rs_absentDays r
    = Z.of_nat (List.length (filter (in_range start end_) atts)) /\
  0 <= rs_attendancePercentage r <= 100 /\
  rs_punctualityScore r <= 100.
Proof.
  cbv zeta. unfold report_stats. cbv zeta.
  cbn [rs_absentDays rs_attendancePercentage rs_punctualityScore rs_presentDays].
  set (inr := filter (in_range start end_) atts).
  assert (Hc : count isPresent inr + count (fun a => negb (isPresent a)) inr
               = Z.of_nat (List.length inr)).
  { unfold count. rewrite <- Nat2Z.inj_add, length_filter_compl. reflexivity. }
  assert (H0 : 0 <= count isPresent inr /\ 0 <= count (fun a => negb (isPresent a)) inr /\
               0 <= count is_late inr /\ 0 <= count is_early_leave inr)
    by (unfold count; lia).
  split; [exact Hc|]. split.
  - destruct (Z.ltb_spec 0 (count isPresent inr + count (fun a => negb (isPresent a)) inr));
      [apply js_round_pct; lia | lia].
  - destruct (Z.ltb_spec 0 (count isPresent inr)); [apply js_round_pct_le; lia | lia].
Qed.

(** ** CSV rows *)

Lemma str_app_assoc (a b c : string) : ((a ++ b) ++ c = a ++ (b ++ c))%string.
Proof. induction a as [|x r IH]; simpl; [reflexivity | rewrite IH; reflexivity]. Qed.

Lemma str_app_nil (a : string) : (a ++ EmptyString = a)%string.
Proof. induction a as [|x r IH]; simpl; [reflexivity | rewrite IH; reflexivity]. Qed.

Lemma read_plain cur s rest :
  has_char dq s = false -> has_char ","%char s = false ->
  read_fields false cur (s ++ rest) = read_fields false (cur ++ s) rest.
Proof.
  revert cur. induction s as [|c s' IH]; intros cur Hq Hc; simpl in *.
  - rewrite str_app_nil. reflexivity.
  - apply orb_false_iff in Hq, Hc. destruct Hq as [Hq Hq']. destruct Hc as [Hc Hc'].
    rewrite Hq, Hc. simpl. rewrite IH by assumption.
    rewrite str_app_assoc. reflexivity.
Qed.

Lemma read_quoted cur s rest :
  has_char dq s = false ->
  read_fields true cur (s ++ String dq rest) = read_fields false (cur ++ s) rest.
Proof.
  revert cur. induction s as [|c s' IH]; intros cur Hq; simpl in *.
  - rewrite str_app_nil. reflexivity.
  - apply orb_false_iff in Hq. destruct Hq as [Hq Hq']. rewrite Hq.
    rewrite andb_false_r. rewrite IH by assumption.
    rewrite str_app_assoc. reflexivity.
Qed.

Lemma read_cell v rest :
  csv_safe v ->
  read_fields false EmptyString (csv_cell v ++ rest) = read_fields false (csv_raw v) rest.
Proof.
  destruct v as [s|r]; simpl; intros Hs.
  - destruct (has_char ","%char s) eqn:Hc.
    + simpl. rewrite str_app_assoc. simpl. rewrite read_quoted by exact Hs. reflexivity.
    + rewrite read_plain by assumption. reflexivity.
  - destruct Hs. rewrite read_plain by assumption. reflexivity.
Qed.

(** Extra X20: a CSV line of the export reads back into exactly the row's
    values (split at the commas outside double quotes, quotes dropped)
    whenever no value contains a double quote; string values with commas
    are the ones the export wraps in quotes. *)
Theorem csv_row_roundtrip vals :
  vals <> [] -> Forall csv_safe vals ->
  read_fields false EmptyString (csv_row vals) = map csv_raw vals.
Proof.
  intros Hne Hs. unfold csv_row.
  induction Hs as [|v vs Hv Hvs IH]; [contradiction|].
  destruct vs as [|v2 vs].
  - simpl. rewrite <- (str_app_nil (csv_cell v)), read_cell by exact Hv.
    reflexivity.
  - change (String.concat "," (map csv_cell (v :: v2 :: vs)))
      with (csv_cell v ++ String ","%char (String.concat "," (map csv_cell (v2 :: vs))))%string.
    remember (String.concat "," (map csv_cell (v2 :: vs))) as rest eqn:Hrest.
    rewrite read_cell by exact Hv. cbn [read_fields].
    replace (Ascii.eqb ","%char dq) with false by reflexivity.
    replace (Ascii.eqb ","%char ","%char) with true by reflexivity. cbn [andb negb].
    rewrite IH by discriminate. reflexivity.
Qed.

Lemma csv_row_roundtrip_witness :
  read_fields false EmptyString
    (csv_row [VStr "E001"; VStr "Kitchen, North"; VOther "42"])
  = map csv_raw [VStr "E001"; VStr "Kitchen, North"; VOther "42"].
Proof.
  apply csv_row_roundtrip.
  - discriminate.
  - repeat constructor.
Defined.
